(** * A shallow embedding of the URL shortener of [app/app.py]

    The Flask handlers [shorten_url], [redirect_to_url] and [list_urls]
    are embedded as computations over the [urls] table, together with the
    code generator [generate_short_code] and the part of Python's value
    model the handlers touch (truthiness, [in], subscripting, [str.strip]).

    What lies outside [app.py] enters as an input of the call it belongs
    to: the raw random draws consumed by [random.choices], the reading of
    the database clock taken by [DEFAULT NOW()], and the inbound request.
    Two library calls can raise on the strings they are handed and are
    embedded with that behaviour: the driver's binding of a [%s]
    parameter ([adapt]) and Flask's [redirect]. *)

From Stdlib Require Import ZArith NArith String Ascii.
From stdpp Require Import base tactics option list sorting.

Local Open Scope N_scope.
Local Open Scope nat_scope.

(** ** Python strings *)

(** A Python [str] is a sequence of Unicode code points. *)
Abbreviation pystr := (list N).

(** [py "..."] reads an ASCII literal as a Python string. *)
Definition py (s : string) : pystr :=
  N_of_ascii <$> list_ascii_of_string s.

(** The code points for which [str.isspace] holds; [str.strip] without an
    argument removes exactly these from both ends. *)
Definition whitespace : list N :=
  [ 9; 10; 11; 12; 13; 28; 29; 30; 31; 32; 133; 160; 5760;
    8192; 8193; 8194; 8195; 8196; 8197; 8198; 8199; 8200; 8201; 8202;
    8232; 8233; 8239; 8287; 12288 ]%N.

Definition isspace (c : N) : bool := bool_decide (c ∈ whitespace).

Fixpoint lstrip (s : pystr) : pystr :=
  match s with
  | [] => []
  | c :: s' => if isspace c then lstrip s' else s
  end.

Definition rstrip (s : pystr) : pystr := reverse (lstrip (reverse s)).

(** [s.strip()] *)
Definition strip (s : pystr) : pystr := rstrip (lstrip s).

Fixpoint startswith (s prefix : pystr) : bool :=
  match prefix, s with
  | [], _ => true
  | _ :: _, [] => false
  | p :: prefix', c :: s' => bool_decide (p = c) && startswith s' prefix'
  end.

(** [sub in s] on strings: [sub] occurs in [s] as a contiguous run. *)
Fixpoint str_contains (sub s : pystr) : bool :=
  startswith s sub ||
  match s with
  | [] => false
  | _ :: s' => str_contains sub s'
  end.

(** ** Python values

    The values [request.get_json()] can return: [None] when there is no
    usable body, otherwise the decoded JSON document. A [dict] is kept as
    its list of items, one per key. *)
#[warnings="-register-all"]
Inductive pyval : Type :=
| PNone
| PBool (b : bool)
| PInt (z : Z)
| PFloat (mantissa exponent : Z)
| PStr (s : pystr)
| PList (items : list pyval)
| PDict (items : list (pystr * pyval)).

(** Truth value testing, as [not x] and [if x] use it. *)
Definition truthy (v : pyval) : bool :=
  match v with
  | PNone => false
  | PBool b => b
  | PInt z => negb (z =? 0)%Z
  | PFloat m _ => negb (m =? 0)%Z
  | PStr s => negb (bool_decide (s = []))
  | PList l => match l with [] => false | _ => true end
  | PDict d => match d with [] => false | _ => true end
  end.

Fixpoint dict_get (k : pystr) (d : list (pystr * pyval)) : option pyval :=
  match d with
  | [] => None
  | (k', v) :: d' => if bool_decide (k' = k) then Some v else dict_get k d'
  end.

Definition is_str (k : pystr) (v : pyval) : bool :=
  match v with
  | PStr s => bool_decide (s = k)
  | _ => false
  end.

Inductive exn : Type :=
| TypeError
| AttributeError
| KeyError
| ValueError
| UnicodeEncodeError
| UniqueViolation
| StringDataRightTruncation.

(** ** The table

    [[
    CREATE TABLE IF NOT EXISTS urls (
        id SERIAL PRIMARY KEY,
        short_code VARCHAR(10) UNIQUE NOT NULL,
        original_url TEXT NOT NULL,
        created_at TIMESTAMP DEFAULT NOW()
    );
    ]]
    A timestamp is a count of microseconds; [created_at] is nullable. *)
Record row : Type := mk_row {
  id : nat;
  short_code : pystr;
  original_url : pystr;
  created_at : option Z
}.

(** The persisted state: the rows of [urls] in insertion order and the
    next value of the sequence behind [id]. *)
Record world : Type := mk_world {
  urls : list row;
  urls_id_seq : nat
}.

(** The state [init_db] leaves on a fresh database. *)
Definition empty_store : world := {| urls := []; urls_id_seq := 1 |}.

(** ** Computations

    A handler runs against the store and either returns, raises, or is
    still in its retry loop when the fuel is spent. *)
Inductive result (A : Type) : Type :=
| Ok (a : A) (w : world)
| Exn (e : exn) (w : world)
| OutOfFuel.
Arguments Ok {A} a w.
Arguments Exn {A} e w.
Arguments OutOfFuel {A}.

Definition M (A : Type) : Type := world -> result A.

Definition ret {A} (a : A) : M A := fun w => Ok a w.

Definition raise {A} (e : exn) : M A := fun w => Exn e w.

Definition bind {A B} (c : M A) (k : A -> M B) : M B :=
  fun w =>
    match c w with
    | Ok a w' => k a w'
    | Exn e w' => Exn e w'
    | OutOfFuel => OutOfFuel
    end.

Notation "'let*' x ':=' c 'in' k" := (bind c (fun x => k))
  (at level 10, x name, c at level 100, k at level 200).

(** [k in v] *)
Definition py_in (k : pystr) (v : pyval) : M bool :=
  match v with
  | PDict d => ret (bool_decide (is_Some (dict_get k d)))
  | PList l => ret (existsb (is_str k) l)
  | PStr s => ret (str_contains k s)
  | PNone | PBool _ | PInt _ | PFloat _ _ => raise TypeError
  end.

(** [v[k]] with a string [k] *)
Definition py_getitem (v : pyval) (k : pystr) : M pyval :=
  match v with
  | PDict d =>
      match dict_get k d with
      | Some x => ret x
      | None => raise KeyError
      end
  | _ => raise TypeError
  end.

(** [v.strip()]: only a [str] has the method. *)
Definition py_strip (v : pyval) : M pystr :=
  match v with
  | PStr s => ret (strip s)
  | _ => raise AttributeError
  end.

(** ** The code generator *)

Definition ascii_letters : pystr :=
  py "abcdefghijklmnopqrstuvwxyzABCDEFGHIJKLMNOPQRSTUVWXYZ".
Definition digits : pystr := py "0123456789".

(** [random.choices(population, k=k)] is
    [[population[floor(random() * n)] for _ in range(k)]]. The raw draws
    are read from [draws] starting at [pos]; a draw selects the index it
    leaves modulo [n], so the index ranges over [0, n) as in Python. *)
Definition choices (population : pystr) (k : nat)
    (draws : nat -> nat) (pos : nat) : pystr :=
  (fun i => nth (draws (pos + i) mod length population) population 0%N)
    <$> seq 0 k.

(** [generate_short_code(length)]: the code and the position of the next
    unread draw. *)
Definition generate_short_code (length : nat)
    (draws : nat -> nat) (pos : nat) : pystr * nat :=
  let characters := ascii_letters ++ digits in
  (choices characters length draws pos, pos + length).

(** ** Statements on the table *)

Definition has_code (code : pystr) (r : row) : bool :=
  bool_decide (short_code r = code).

(** A code point of the surrogate range U+D800..U+DFFF. *)
Definition is_surrogate (c : N) : bool :=
  ((55296 <=? c) && (c <=? 57343))%N.

(** How [cur.execute] binds a [str] to a [%s]: the driver encodes it as
    UTF-8, which a lone surrogate makes fail with [UnicodeEncodeError],
    and then quotes it, refusing U+0000 with [ValueError]. Both happen
    before anything is sent to the database. *)
Definition adapt (s : pystr) : M unit :=
  if existsb is_surrogate s then raise UnicodeEncodeError
  else if bool_decide (0%N ∈ s) then raise ValueError
  else ret tt.

(** [SELECT id FROM urls WHERE short_code = %s] followed by [fetchone()].
    The comparison is equality of the two strings. *)
Definition select_id (code : pystr) : M (option nat) :=
  let* _ := adapt code in
  fun w => Ok (id <$> find (has_code code) (urls w)) w.

(** [SELECT original_url FROM urls WHERE short_code = %s] followed by
    [fetchone()]. *)
Definition select_original_url (code : pystr) : M (option pystr) :=
  let* _ := adapt code in
  fun w => Ok (original_url <$> find (has_code code) (urls w)) w.

(** [INSERT INTO urls (short_code, original_url) VALUES (%s, %s)] followed
    by [commit()]. Both parameters are bound first. [id] and [created_at]
    take their defaults; [VARCHAR(10)] and [UNIQUE] are checked by the
    store. A rejected insert persists no row; a sequence value taken
    before a [UNIQUE] rejection is not given back. *)
Definition insert_url (code url : pystr) (now : Z) : M unit :=
  let* _ := adapt code in
  let* _ := adapt url in
  fun w =>
    if bool_decide (10 < length code) then Exn StringDataRightTruncation w
    else if bool_decide (code ∈ short_code <$> urls w) then
      Exn UniqueViolation
        {| urls := urls w; urls_id_seq := S (urls_id_seq w) |}
    else
      Ok tt
        {| urls := urls w ++ [mk_row (urls_id_seq w) code url (Some now)];
           urls_id_seq := S (urls_id_seq w) |}.

(** The order of [TIMESTAMP] values, [NULL] sorting as the largest. *)
Definition ts_le (a b : option Z) : Prop :=
  match a, b with
  | _, None => True
  | None, Some _ => False
  | Some x, Some y => (x <= y)%Z
  end.

(** [r1] may precede [r2] under [ORDER BY created_at DESC]. *)
Definition newer_first (r1 r2 : row) : Prop :=
  ts_le (created_at r2) (created_at r1).

#[global] Instance ts_le_dec : RelDecision ts_le.
Proof.
  intros [x|] [y|]; simpl; try (left; exact I); try (right; tauto).
  apply Z_le_dec.
Defined.

#[global] Instance newer_first_dec : RelDecision newer_first.
Proof. intros r1 r2. unfold newer_first. apply ts_le_dec. Defined.

(** [SELECT short_code, original_url, created_at FROM urls
     ORDER BY created_at DESC] followed by [fetchall()]. *)
Definition select_order_by_created_at_desc : M (list row) :=
  fun w => Ok (merge_sort newer_first (urls w)) w.

(** ** Requests and responses *)

(** The parts of Flask's [request] in play: the scheme and the [Host] of
    the inbound request and the result of [get_json()]. *)
Record request : Type := mk_request {
  scheme : pystr;
  host : pystr;
  get_json : pyval
}.

(** What a view function returns: [jsonify(body), status], or the
    response [redirect] builds, with its [Location] header and code. *)
Inductive response : Type :=
| jsonify (body : pyval) (status : nat)
| Redirect (location : pystr) (code : nat).

(** CR or LF, which no header value may hold. *)
Definition is_newline (c : N) : bool :=
  bool_decide (c = 10%N) || bool_decide (c = 13%N).

(** [redirect(location, code=code)]: the response carries [location]
    unchanged as its [Location] header; setting a header value that holds
    CR or LF raises [ValueError]. *)
Definition redirect (location : pystr) (code : nat) : M response :=
  if existsb is_newline location then raise ValueError
  else ret (Redirect location code).

(** [f"http://{host}/{short_code}"] *)
Definition short_url_of (host short_code : pystr) : pystr :=
  py "http://" ++ host ++ py "/" ++ short_code.

(** ** [POST /api/shorten] *)

(** The loop
    [[
    while cur.fetchone() is not None:
        short_code = generate_short_code()
        cur.execute("SELECT id FROM urls WHERE short_code = %s", ...)
    ]]
    entered with the first candidate [short_code] already selected on. *)
Fixpoint shorten_url_loop (fuel : nat) (draws : nat -> nat) (pos : nat)
    (short_code : pystr) : M pystr :=
  let* found := select_id short_code in
  match found with
  | None => ret short_code
  | Some _ =>
      match fuel with
      | O => fun _ => OutOfFuel
      | S fuel' =>
          let '(short_code', pos') := generate_short_code 6 draws pos in
          shorten_url_loop fuel' draws pos' short_code'
      end
  end.

Definition shorten_url (fuel : nat) (draws : nat -> nat) (now : Z)
    (req : request) : M response :=
  let data := get_json req in
  let* missing :=
    (if negb (truthy data) then ret true
     else let* present := py_in (py "url") data in ret (negb present)) in
  if (missing : bool) then
    ret (jsonify (PDict [(py "error", PStr (py "Missing 'url' in request body"))]) 400)
  else
    let* original_url := py_getitem data (py "url") in
    let* original_url := py_strip original_url in
    if negb (truthy (PStr original_url)) then
      ret (jsonify (PDict [(py "error", PStr (py "URL cannot be empty"))]) 400)
    else
      let '(short_code, pos) := generate_short_code 6 draws 0 in
      let* short_code := shorten_url_loop fuel draws pos short_code in
      let* _ := insert_url short_code original_url now in
      let short_url := short_url_of (host req) short_code in
      ret (jsonify (PDict [(py "short_code", PStr short_code);
                           (py "short_url", PStr short_url);
                           (py "original_url", PStr original_url)]) 201).

(** ** [GET /<short_code>] *)

Definition redirect_to_url (short_code : pystr) : M response :=
  let* result := select_original_url short_code in
  match result with
  | None =>
      ret (jsonify (PDict [(py "error", PStr (py "Short URL not found"))]) 404)
  | Some original_url => redirect original_url 302
  end.

(** ** [GET /api/urls] *)

Section Listing.

(** [datetime.isoformat], which renders a timestamp as text. *)
Variable isoformat : Z -> pystr.

Definition url_entry (req : request) (url : row) : pyval :=
  PDict [(py "short_code", PStr (short_code url));
         (py "original_url", PStr (original_url url));
         (py "short_url", PStr (short_url_of (host req) (short_code url)));
         (py "created_at",
           match created_at url with
           | Some t => PStr (isoformat t)
           | None => PNone
           end)].

Definition list_urls (req : request) : M response :=
  let* urls := select_order_by_created_at_desc in
  ret (jsonify (PList (url_entry req <$> urls)) 200).

End Listing.

(** * Vocabulary of the properties *)

(** [c] is one of a-z, A-Z, 0-9. *)
Definition alphanumeric (c : N) : Prop :=
  (97 <= c <= 122 \/ 65 <= c <= 90 \/ 48 <= c <= 57)%N.

Definition alphanumericb (c : N) : bool :=
  ((97 <=? c) && (c <=? 122) || (65 <=? c) && (c <=? 90)
   || (48 <=? c) && (c <=? 57))%N.

(** The codes held by the store. *)
Definition codes (w : world) : list pystr := short_code <$> urls w.

(** The [UNIQUE] constraint on [short_code]. *)
Definition unique_codes (w : world) : Prop := NoDup (codes w).

(** The [k]-th candidate a call draws: six draws starting at [6 * k]. *)
Definition candidate (draws : nat -> nat) (k : nat) : pystr :=
  (generate_short_code 6 draws (6 * k)).1.

(** The body of the [201] response. *)
Definition created_body (host code url : pystr) : pyval :=
  PDict [(py "short_code", PStr code);
         (py "short_url", PStr (short_url_of host code));
         (py "original_url", PStr url)].

Definition error_body (msg : pystr) : pyval :=
  PDict [(py "error", PStr msg)].

(** The request carries a string under ["url"] that does not trim to the
    empty string; [s] is that string. *)
Definition valid_url_request (req : request) (s : pystr) : Prop :=
  exists d, get_json req = PDict d
    /\ dict_get (py "url") d = Some (PStr s) /\ strip s <> [].

(** The store after the insert of [code] for [url] at time [now]. *)
Definition store_with (w : world) (code url : pystr) (now : Z) : world :=
  {| urls := urls w ++ [mk_row (urls_id_seq w) code url (Some now)];
     urls_id_seq := S (urls_id_seq w) |}.

(** The handler after validation: the loop followed by the insert. *)
Definition create_mapping (fuel : nat) (draws : nat -> nat) (now : Z)
    (req : request) (url : pystr) (w : world) : result response :=
  match shorten_url_loop fuel draws 6 (candidate draws 0) w with
  | Ok code w' =>
      match insert_url code url now w' with
      | Ok _ w'' => Ok (jsonify (created_body (host req) code url) 201) w''
      | Exn e w'' => Exn e w''
      | OutOfFuel => OutOfFuel
      end
  | Exn e w' => Exn e w'
  | OutOfFuel => OutOfFuel
  end.


(** One request to the service. *)
Inductive call : Type :=
| Shorten (fuel : nat) (draws : nat -> nat) (now : Z) (req : request)
| Resolve (short_code : pystr)
| ListUrls (isoformat : Z -> pystr) (req : request).

Definition run (c : call) : M response :=
  match c with
  | Shorten fuel draws now req => shorten_url fuel draws now req
  | Resolve short_code => redirect_to_url short_code
  | ListUrls isoformat req => list_urls isoformat req
  end.

(** The store a finished computation leaves behind. *)
Definition world_after {A} (r : result A) : option world :=
  match r with
  | Ok _ w | Exn _ w => Some w
  | OutOfFuel => None
  end.

(** The store after a sequence of requests served one after the other. *)
Fixpoint run_calls (cs : list call) (w : world) : option world :=
  match cs with
  | [] => Some w
  | c :: cs' =>
      match world_after (run c w) with
      | Some w' => run_calls cs' w'
      | None => None
      end
  end.

(** [r1] was created strictly before [r2] by the store's clock. *)
Definition older (r1 r2 : row) : Prop :=
  exists t1 t2,
    created_at r1 = Some t1 /\ created_at r2 = Some t2 /\ (t1 < t2)%Z.

(** The origin of the inbound request: scheme, ["://"], host. *)
Definition origin (req : request) : pystr :=
  scheme req ++ py "://" ++ host req.

(** The index of [c] in [population], 0 when it does not occur. *)
Definition index_in (population : pystr) (c : N) : nat :=
  match list_find (fun x => x = c) population with
  | Some (i, _) => i
  | None => 0
  end.

(** Raw draws that spell [code] when read from [pos]. *)
Definition draws_for (code : pystr) (pos : nat) : nat -> nat :=
  fun i => index_in (ascii_letters ++ digits) (nth (i - pos) code 0%N).

(** What the service writes into a row: a six-character code over the
    alphabet, a URL that is not empty and carries no surrounding
    whitespace, and a creation time. *)
Definition row_wellformed (r : row) : Prop :=
  length (short_code r) = 6
  /\ Forall (fun c => c ∈ ascii_letters ++ digits) (short_code r)
  /\ original_url r <> []
  /\ strip (original_url r) = original_url r
  /\ is_Some (created_at r).

(** The ids are 1, 2, ... in insertion order and the sequence stands at
    the next one. *)
Definition ids_in_sequence (w : world) : Prop :=
  id <$> urls w = seq 1 (length (urls w))
  /\ urls_id_seq w = S (length (urls w)).

(** The driver binds [s] without raising. *)
Definition adaptable (s : pystr) : bool :=
  negb (existsb is_surrogate s) && negb (bool_decide (0%N ∈ s)).

(** The exception [adapt] raises on a string that is not [adaptable]. *)
Definition adapt_error (s : pystr) : exn :=
  if existsb is_surrogate s then UnicodeEncodeError else ValueError.

(** * Properties *)

Example shorten_then_resolve :
  let draws := fun i => i in
  let req := mk_request (py "http") (py "localhost")
               (PDict [(py "url", PStr (py "  https://example.com/a/b "))]) in
  exists w,
    shorten_url 0 draws 1700 req empty_store
    = Ok (jsonify (PDict [(py "short_code", PStr (py "abcdef"));
                          (py "short_url", PStr (py "http://localhost/abcdef"));
                          (py "original_url", PStr (py "https://example.com/a/b"))])
            201) w
    /\ redirect_to_url (py "abcdef") w
       = Ok (Redirect (py "https://example.com/a/b") 302) w
    /\ redirect_to_url (py "doesnotexist") w
       = Ok (jsonify (PDict [(py "error", PStr (py "Short URL not found"))]) 404) w.
Proof. eexists. repeat split; vm_compute; reflexivity. Qed.

(** ** Trimming *)




(** What [strip] leaves starts with a character that is not whitespace. *)
Lemma lstrip_head (s : pystr) (c : N) (t : pystr) :
  lstrip s = c :: t -> isspace c = false.
Proof.
  induction s as [|a s IH]; simpl; [discriminate|].
  destruct (isspace a) eqn:Ha; [done|]. by intros [= <- _].
Qed.

(** ** The alphabet *)

Lemma alphanumericb_spec (c : N) : alphanumericb c = true <-> alphanumeric c.
Proof.
  unfold alphanumericb, alphanumeric.
  rewrite !orb_true_iff, !andb_true_iff, !N.leb_le. tauto.
Qed.

Lemma characters_length : length (ascii_letters ++ digits) = 62.
Proof. reflexivity. Qed.

Lemma characters_NoDup : NoDup (ascii_letters ++ digits).
Proof. apply (bool_decide_unpack _). vm_compute. exact I. Qed.

Lemma characters_alphanumeric (c : N) :
  c ∈ ascii_letters ++ digits <-> alphanumeric c.
Proof.
  rewrite <- alphanumericb_spec. split.
  - intros Hc.
    assert (Hall : forallb alphanumericb (ascii_letters ++ digits) = true)
      by (vm_compute; reflexivity).
    rewrite forallb_forall in Hall. apply Hall. by apply list_elem_of_In.
  - intros Hc.
    assert (Hlt : (c < 123)%N).
    { apply alphanumericb_spec in Hc. unfold alphanumeric in Hc. lia. }
    assert (Hall : forallb (fun n => implb (alphanumericb (N.of_nat n))
                     (bool_decide (N.of_nat n ∈ ascii_letters ++ digits)))
                     (seq 0 123) = true) by (vm_compute; reflexivity).
    rewrite forallb_forall in Hall.
    specialize (Hall (N.to_nat c)). rewrite N2Nat.id, Hc in Hall.
    assert (Hin : In (N.to_nat c) (seq 0 123)) by (apply in_seq; lia).
    apply Hall in Hin. by apply bool_decide_eq_true_1 in Hin.
Qed.

(** ** The generator *)

Lemma choices_length population k draws pos :
  length (choices population k draws pos) = k.
Proof. unfold choices. by rewrite length_fmap, length_seq. Qed.

Lemma choices_elem_of population k draws pos c :
  population <> [] ->
  c ∈ choices population k draws pos -> c ∈ population.
Proof.
  intros Hne. unfold choices. rewrite list_elem_of_fmap.
  intros (i & -> & _). apply list_elem_of_In, nth_In.
  apply Nat.mod_upper_bound. by destruct population.
Qed.

Lemma generate_short_code_shape n draws pos :
  length (generate_short_code n draws pos).1 = n
  /\ Forall alphanumeric (generate_short_code n draws pos).1.
Proof.
  simpl. split; [apply choices_length|].
  apply Forall_forall. intros c Hc.
  apply characters_alphanumeric.
  by apply (choices_elem_of _ n draws pos).
Qed.

(** ** The table's statements *)

Lemma find_has_code_None code (l : list row) :
  find (has_code code) l = None <-> code ∉ short_code <$> l.
Proof.
  induction l as [|r l IH]; simpl.
  - split; [intros _; apply not_elem_of_nil | done].
  - unfold has_code at 1. rewrite not_elem_of_cons. case_bool_decide.
    + split; [discriminate | intros [Hne _]; congruence].
    + rewrite IH. split; [intros ?; split; [congruence | done] | tauto].
Qed.

Lemma find_has_code_Some code (l : list row) r :
  find (has_code code) l = Some r -> r ∈ l /\ short_code r = code.
Proof.
  intros H. apply find_some in H as [Hin Hc].
  split; [by apply list_elem_of_In | by apply bool_decide_eq_true_1 in Hc].
Qed.

(** With distinct codes the row selected for a code is the row that
    carries it. *)
Lemma find_has_code_unique (l : list row) r :
  NoDup (short_code <$> l) -> r ∈ l ->
  find (has_code (short_code r)) l = Some r.
Proof.
  induction l as [|a l IH]; simpl; intros Hnd Hin; [by inversion Hin|].
  apply NoDup_cons in Hnd as [Hfresh Hnd].
  unfold has_code at 1. case_bool_decide as Ha.
  - apply elem_of_cons in Hin as [->|Hin]; [done|].
    exfalso. apply Hfresh. rewrite Ha. by apply list_elem_of_fmap_2.
  - apply elem_of_cons in Hin as [->|Hin]; [done | by apply IH].
Qed.

Lemma find_has_code_app_fresh code (l : list row) r :
  code ∉ short_code <$> l -> short_code r = code ->
  find (has_code code) (l ++ [r]) = Some r.
Proof.
  intros Hfresh Hr. apply find_has_code_None in Hfresh.
  induction l as [|a l IH]; simpl in *.
  - unfold has_code. by rewrite bool_decide_eq_true_2.
  - destruct (has_code code a); [discriminate | by apply IH].
Qed.

(** ** Binding parameters *)

Lemma adapt_eq s w :
  adapt s w = if adaptable s then Ok tt w else Exn (adapt_error s) w.
Proof.
  unfold adapt, adaptable, adapt_error.
  destruct (existsb is_surrogate s); [done|].
  by destruct (bool_decide (0%N ∈ s)).
Qed.

Lemma alphanumeric_adaptable (s : pystr) :
  Forall alphanumeric s -> adaptable s = true.
Proof.
  intros Hs. unfold adaptable. apply andb_true_iff. split.
  - apply negb_true_iff, not_true_iff_false. intros Hex.
    apply existsb_exists in Hex as (c & Hc%list_elem_of_In & Hsur).
    rewrite Forall_forall in Hs. specialize (Hs c Hc).
    unfold is_surrogate in Hsur.
    apply andb_true_iff in Hsur as [H1%N.leb_le H2%N.leb_le].
    unfold alphanumeric in Hs. lia.
  - apply negb_true_iff, bool_decide_eq_false_2. intros H0.
    rewrite Forall_forall in Hs. specialize (Hs _ H0).
    unfold alphanumeric in Hs. lia.
Qed.

Lemma candidate_adaptable draws k : adaptable (candidate draws k) = true.
Proof. apply alphanumeric_adaptable, generate_short_code_shape. Qed.

Lemma select_id_eq code w :
  adaptable code = true ->
  select_id code w = Ok (id <$> find (has_code code) (urls w)) w.
Proof. intros Hc. unfold select_id, bind. by rewrite adapt_eq, Hc. Qed.

Lemma select_original_url_eq code w :
  select_original_url code w =
  if adaptable code then
    Ok (original_url <$> find (has_code code) (urls w)) w
  else Exn (adapt_error code) w.
Proof.
  unfold select_original_url, bind. rewrite adapt_eq.
  by destruct (adaptable code).
Qed.

(** ** The retry loop *)

Lemma shorten_url_loop_eq fuel draws pos code w :
  adaptable code = true ->
  shorten_url_loop fuel draws pos code w =
  match find (has_code code) (urls w) with
  | None => Ok code w
  | Some _ =>
      match fuel with
      | O => OutOfFuel
      | S fuel' =>
          shorten_url_loop fuel' draws (pos + 6)
            (generate_short_code 6 draws pos).1 w
      end
  end.
Proof.
  intros Hc. destruct fuel; cbn [shorten_url_loop]; unfold bind at 1;
    rewrite select_id_eq by done; by destruct (find _ (urls w)).
Qed.

(** The loop returns the first candidate the store does not hold, leaves
    the store as it found it and never raises; it runs out of fuel only
    when every candidate it could reach is taken. *)
Lemma shorten_url_loop_spec fuel draws k w :
  match shorten_url_loop fuel draws (6 * S k) (candidate draws k) w with
  | Ok code w' =>
      w' = w /\
      exists n : nat, (k <= n <= k + fuel) /\ code = candidate draws n
        /\ (code ∉ codes w)
        /\ forall j, k <= j < n -> candidate draws j ∈ codes w
  | Exn _ _ => False
  | OutOfFuel => forall j, k <= j <= k + fuel -> candidate draws j ∈ codes w
  end.
Proof.
  revert k. induction fuel as [|fuel IH]; intros k;
    rewrite shorten_url_loop_eq by apply candidate_adaptable.
  - destruct (find _ (urls w)) as [r|] eqn:Hf.
    + intros j Hj. replace j with k by lia.
      apply find_has_code_Some in Hf as [Hin <-].
      by apply list_elem_of_fmap_2.
    + split; [done|]. exists k. split; [lia|]. split; [done|].
      split; [by apply find_has_code_None | intros j Hj; lia].
  - destruct (find _ (urls w)) as [r|] eqn:Hf.
    + assert (Hk : candidate draws k ∈ codes w).
      { apply find_has_code_Some in Hf as [Hin <-].
        by apply list_elem_of_fmap_2. }
      change (generate_short_code 6 draws (6 * S k)).1
        with (candidate draws (S k)).
      replace (6 * S k + 6) with (6 * S (S k)) by lia.
      specialize (IH (S k)).
      destruct (shorten_url_loop fuel draws _ _ w) as [code w'| |].
      * destruct IH as (-> & n & Hn & -> & Hfresh & Hall).
        split; [done|]. exists n. split; [lia|]. split; [done|].
        split; [done|]. intros j Hj.
        destruct (decide (j = k)) as [->|]; [done | apply Hall; lia].
      * done.
      * intros j Hj.
        destruct (decide (j = k)) as [->|]; [done | apply IH; lia].
    + split; [done|]. exists k. split; [lia|]. split; [done|].
      split; [by apply find_has_code_None | intros j Hj; lia].
Qed.

(** Enough fuel to reach a free candidate makes the loop return. *)
Lemma shorten_url_loop_returns fuel draws k n w :
  k <= n <= k + fuel -> candidate draws n ∉ codes w ->
  exists code,
    shorten_url_loop fuel draws (6 * S k) (candidate draws k) w = Ok code w.
Proof.
  intros Hn Hfree. pose proof (shorten_url_loop_spec fuel draws k w) as H.
  destruct (shorten_url_loop fuel draws _ _ w) as [code w'| |].
  - destruct H as [-> _]. by exists code.
  - done.
  - exfalso. by apply Hfree, H.
Qed.

(** ** [shorten_url] case by case *)

Lemma dict_get_Some_nonempty k d v : dict_get k d = Some v -> d <> [].
Proof. by destruct d. Qed.

Lemma candidate_length draws k : length (candidate draws k) = 6.
Proof. apply choices_length. Qed.

Lemma insert_url_eq code url now w :
  insert_url code url now w =
  if adaptable code then
    if adaptable url then
      if bool_decide (10 < length code) then Exn StringDataRightTruncation w
      else if bool_decide (code ∈ codes w) then
        Exn UniqueViolation
          {| urls := urls w; urls_id_seq := S (urls_id_seq w) |}
      else Ok tt (store_with w code url now)
    else Exn (adapt_error url) w
  else Exn (adapt_error code) w.
Proof.
  unfold insert_url, bind. rewrite adapt_eq.
  destruct (adaptable code); [|done]. rewrite adapt_eq.
  by destruct (adaptable url).
Qed.

Lemma insert_url_fresh code url now w :
  adaptable code = true -> adaptable url = true ->
  length code <= 10 -> code ∉ codes w ->
  insert_url code url now w = Ok tt (store_with w code url now).
Proof.
  intros Hc Hu Hlen Hfresh. rewrite insert_url_eq, Hc, Hu.
  rewrite bool_decide_eq_false_2 by lia.
  by rewrite bool_decide_eq_false_2.
Qed.

Lemma insert_url_unadaptable code url now w :
  adaptable code = true -> adaptable url = false ->
  insert_url code url now w = Exn (adapt_error url) w.
Proof. intros Hc Hu. by rewrite insert_url_eq, Hc, Hu. Qed.

(** The handler on a body that is an object with a ["url"] member. *)
Lemma shorten_url_dict fuel draws now req d v w :
  get_json req = PDict d -> dict_get (py "url") d = Some v ->
  shorten_url fuel draws now req w =
  match v with
  | PStr s =>
      if bool_decide (strip s = []) then
        Ok (jsonify (error_body (py "URL cannot be empty")) 400) w
      else create_mapping fuel draws now req (strip s) w
  | _ => Exn AttributeError w
  end.
Proof.
  intros Hd Hurl. unfold shorten_url. rewrite Hd.
  assert (Ht : truthy (PDict d) = true).
  { pose proof (dict_get_Some_nonempty _ _ _ Hurl). by destruct d. }
  rewrite Ht. cbn [negb py_in py_getitem]. rewrite Hurl.
  unfold bind at 1 2. unfold ret at 1 2.
  rewrite bool_decide_eq_true_2 by done. cbn [negb].
  unfold bind at 1. unfold ret at 1. unfold bind at 1.
  destruct v as [|b|z|m e|s|l|d']; cbn [py_strip]; try reflexivity.
  unfold ret at 1. cbn [truthy]. case_bool_decide; cbn [negb]; reflexivity.
Qed.

(** On a valid request the handler is the loop followed by the insert. *)
Lemma shorten_url_valid fuel draws now req s w :
  valid_url_request req s ->
  shorten_url fuel draws now req w = create_mapping fuel draws now req (strip s) w.
Proof.
  intros (d & Hd & Hurl & Hs). rewrite (shorten_url_dict _ _ _ _ d (PStr s)) by done.
  by rewrite bool_decide_eq_false_2.
Qed.

(** Creation with the first free candidate: one appended row when the
    driver can bind the URL, the driver's exception and an untouched
    store when it cannot; it runs out of fuel only when every candidate
    within reach is taken. *)
Lemma create_mapping_spec fuel draws now req url w :
  match create_mapping fuel draws now req url w with
  | Ok r w' =>
      exists n : nat,
        n <= fuel /\ (candidate draws n ∉ codes w)
        /\ (forall j, j < n -> candidate draws j ∈ codes w)
        /\ r = jsonify (created_body (host req) (candidate draws n) url) 201
        /\ w' = store_with w (candidate draws n) url now
  | Exn e w' =>
      w' = w /\ adaptable url = false /\ e = adapt_error url
      /\ exists n : nat, n <= fuel /\ (candidate draws n ∉ codes w)
  | OutOfFuel => forall j, j <= fuel -> candidate draws j ∈ codes w
  end.
Proof.
  unfold create_mapping.
  pose proof (shorten_url_loop_spec fuel draws 0 w) as Hloop.
  change (6 * 1) with 6 in Hloop.
  destruct (shorten_url_loop fuel draws 6 _ w) as [code w1| |]; [|done|].
  - destruct Hloop as (-> & n & Hn & -> & Hfresh & Hall).
    destruct (adaptable url) eqn:Hu.
    + rewrite insert_url_fresh;
        [|apply candidate_adaptable|done|rewrite candidate_length; lia|done].
      exists n. split; [lia|]. split; [done|].
      split; [|done]. intros j Hj. apply Hall. lia.
    + rewrite insert_url_unadaptable by (done || apply candidate_adaptable).
      do 3 (split; [done|]). exists n. split; [lia|done].
  - intros j Hj. apply Hloop. lia.
Qed.

Lemma create_mapping_Ok_adaptable fuel draws now req url w r w' :
  create_mapping fuel draws now req url w = Ok r w' -> adaptable url = true.
Proof.
  unfold create_mapping.
  pose proof (shorten_url_loop_spec fuel draws 0 w) as Hloop.
  change (6 * 1) with 6 in Hloop.
  destruct (shorten_url_loop fuel draws 6 _ w) as [code w1| |]; [|done..].
  destruct Hloop as (-> & n & Hn & -> & Hfresh & Hall).
  destruct (adaptable url) eqn:Hu; [done|].
  by rewrite insert_url_unadaptable by (done || apply candidate_adaptable).
Qed.

Lemma create_mapping_returns fuel draws now req url w n :
  adaptable url = true ->
  n <= fuel -> candidate draws n ∉ codes w ->
  exists code,
    create_mapping fuel draws now req url w
    = Ok (jsonify (created_body (host req) code url) 201)
         (store_with w code url now).
Proof.
  intros Hu Hn Hfree.
  pose proof (create_mapping_spec fuel draws now req url w) as H.
  destruct (create_mapping fuel draws now req url w) as [r w'|e w'|].
  - destruct H as (m & _ & _ & _ & -> & ->). by eexists.
  - destruct H as (_ & Hu' & _). congruence.
  - exfalso. by apply Hfree, H.
Qed.

(** A call that returns has either rejected the request and left the store
    alone, or served a valid request with the first free candidate and
    appended one row for it. *)
Lemma shorten_url_Ok_inv fuel draws now req w r w' :
  shorten_url fuel draws now req w = Ok r w' ->
  (exists msg, r = jsonify (error_body msg) 400 /\ w' = w)
  \/ exists s n,
       valid_url_request req s /\ n <= fuel
       /\ (candidate draws n ∉ codes w)
       /\ (forall j, j < n -> candidate draws j ∈ codes w)
       /\ r = jsonify (created_body (host req) (candidate draws n) (strip s)) 201
       /\ w' = store_with w (candidate draws n) (strip s) now.
Proof.
  destruct (get_json req) as [|b|z|m e|t|l|d] eqn:Hd.
  1-6: unfold shorten_url; rewrite Hd; cbn [truthy py_in];
       unfold bind, ret, raise.
  - intros [= <- <-]. left. by eexists.
  - destruct b; cbn [negb]; [discriminate|].
    intros [= <- <-]. left. by eexists.
  - destruct (z =? 0)%Z; cbn [negb]; [|discriminate].
    intros [= <- <-]. left. by eexists.
  - destruct (m =? 0)%Z; cbn [negb]; [|discriminate].
    intros [= <- <-]. left. by eexists.
  - destruct (negb (negb _)); [|destruct (str_contains _ _)]; cbn [negb];
      try discriminate; intros [= <- <-]; left; by eexists.
  - destruct (negb _); [|destruct (existsb _ _)]; cbn [negb];
      try discriminate; intros [= <- <-]; left; by eexists.
  - destruct (dict_get (py "url") d) as [v|] eqn:Hurl.
    + rewrite (shorten_url_dict _ _ _ _ d v) by done.
      destruct v as [|b|z|m e|s|l|d']; try discriminate.
      case_bool_decide as Hs.
      * intros [= <- <-]. left. by eexists.
      * assert (Hvalid : valid_url_request req s) by (by exists d).
        pose proof (create_mapping_spec fuel draws now req (strip s) w) as H.
        intros Hrun. rewrite Hrun in H.
        destruct H as (n & Hn & Hfresh & Hall & -> & ->).
        right. by exists s, n.
    + unfold shorten_url. rewrite Hd. cbn [py_in].
      destruct (negb (truthy (PDict d))); unfold bind, ret.
      * intros [= <- <-]. left. by eexists.
      * rewrite Hurl, bool_decide_eq_false_2 by (by intros [? ?]).
        cbn [negb]. intros [= <- <-]. left. by eexists.
Qed.

(** A call that raises leaves the store as it was. *)
Lemma shorten_url_Exn_inv fuel draws now req w e w' :
  shorten_url fuel draws now req w = Exn e w' ->
  w' = w
  /\ (e = TypeError \/ e = AttributeError
      \/ e = ValueError \/ e = UnicodeEncodeError).
Proof.
  destruct (get_json req) as [|b|z|m x|t|l|d] eqn:Hd.
  1-6: unfold shorten_url; rewrite Hd; cbn [truthy py_in py_getitem];
       unfold bind, ret, raise.
  - discriminate.
  - destruct b; cbn [negb]; [|discriminate]. intros [= <- <-]. auto.
  - destruct (z =? 0)%Z; cbn [negb]; [discriminate|]. intros [= <- <-]. auto.
  - destruct (m =? 0)%Z; cbn [negb]; [discriminate|]. intros [= <- <-]. auto.
  - destruct (negb (negb _)); [|destruct (str_contains _ _)]; cbn [negb];
      try discriminate. intros [= <- <-]. auto.
  - destruct (negb _); [|destruct (existsb _ _)]; cbn [negb];
      try discriminate. intros [= <- <-]. auto.
  - destruct (dict_get (py "url") d) as [v|] eqn:Hurl.
    + rewrite (shorten_url_dict _ _ _ _ d v) by done.
      destruct v as [|b|z|m x|s|l|d']; try (intros [= <- <-]; by auto).
      case_bool_decide as Hs; [discriminate|].
      pose proof (create_mapping_spec fuel draws now req (strip s) w) as H.
      intros Hrun. rewrite Hrun in H. destruct H as (-> & _ & -> & _).
      split; [done|]. unfold adapt_error. destruct (existsb _ _); auto.
    + unfold shorten_url. rewrite Hd. cbn [py_in].
      destruct (negb (truthy (PDict d))); unfold bind, ret; [discriminate|].
      rewrite Hurl, bool_decide_eq_false_2 by (by intros [? ?]).
      cbn [negb]. discriminate.
Qed.

(** ** [redirect_to_url] case by case *)

Lemma redirect_eq location code w :
  redirect location code w =
  if existsb is_newline location then Exn ValueError w
  else Ok (Redirect location code) w.
Proof. unfold redirect. by destruct (existsb _ _). Qed.

Lemma redirect_to_url_eq code w :
  redirect_to_url code w =
  if adaptable code then
    match find (has_code code) (urls w) with
    | Some r => redirect (original_url r) 302 w
    | None => Ok (jsonify (error_body (py "Short URL not found")) 404) w
    end
  else Exn (adapt_error code) w.
Proof.
  unfold redirect_to_url, bind. rewrite select_original_url_eq.
  destruct (adaptable code); [|done]. by destruct (find _ _).
Qed.

(** Resolution never changes the store. *)
Lemma redirect_to_url_frame code w :
  world_after (redirect_to_url code w) = Some w.
Proof.
  rewrite redirect_to_url_eq. destruct (adaptable code); [|done].
  destruct (find _ _); [|done]. rewrite redirect_eq.
  by destruct (existsb _ _).
Qed.

(** A valid request is served as soon as one candidate within the reach
    of the fuel is free. *)
Lemma shorten_url_returns fuel draws now req s w n :
  valid_url_request req s -> adaptable (strip s) = true ->
  n <= fuel -> candidate draws n ∉ codes w ->
  exists code,
    shorten_url fuel draws now req w
    = Ok (jsonify (created_body (host req) code (strip s)) 201)
         (store_with w code (strip s) now).
Proof.
  intros Hvalid Hu Hn Hfree. rewrite (shorten_url_valid _ _ _ _ s) by done.
  by apply (create_mapping_returns _ _ _ _ _ _ n).
Qed.

Lemma shorten_url_valid_Ok_inv fuel draws now req s w r w' :
  valid_url_request req s ->
  shorten_url fuel draws now req w = Ok r w' ->
  exists n : nat,
    n <= fuel /\ (candidate draws n ∉ codes w)
    /\ (forall j, j < n -> candidate draws j ∈ codes w)
    /\ r = jsonify (created_body (host req) (candidate draws n) (strip s)) 201
    /\ w' = store_with w (candidate draws n) (strip s) now.
Proof.
  intros Hvalid. rewrite (shorten_url_valid _ _ _ _ s) by done.
  pose proof (create_mapping_spec fuel draws now req (strip s) w) as H.
  intros Hrun. by rewrite Hrun in H.
Qed.

(** ** Round trip *)

Lemma redirect_to_url_store_with w code url now :
  adaptable code = true -> code ∉ codes w ->
  redirect_to_url code (store_with w code url now)
  = redirect url 302 (store_with w code url now).
Proof.
  intros Hc Hfresh. rewrite redirect_to_url_eq, Hc. cbn [store_with urls].
  by rewrite (find_has_code_app_fresh _ _ _ Hfresh).
Qed.




(** ** Shape of the codes *)

(** C3: the alphabet is the 62 characters a-z, A-Z, 0-9; every code the
    generator produces at the default length has length 6 and only
    characters of the alphabet, and so has the code of every 201 answer
    of shorten. *)
Theorem generated_code_shape :
  length (ascii_letters ++ digits) = 62
  /\ (forall c, c ∈ ascii_letters ++ digits <-> alphanumeric c)
  /\ (forall draws pos,
        length (generate_short_code 6 draws pos).1 = 6
        /\ Forall (fun c => c ∈ ascii_letters ++ digits)
             (generate_short_code 6 draws pos).1)
  /\ (forall fuel draws now req w body w',
        shorten_url fuel draws now req w = Ok (jsonify body 201) w' ->
        exists code url,
          body = created_body (host req) code url
          /\ length code = 6
          /\ Forall (fun c => c ∈ ascii_letters ++ digits) code).
Proof.
  split; [apply characters_length|].
  split; [apply characters_alphanumeric|].
  assert (Hgen : forall draws pos,
            length (generate_short_code 6 draws pos).1 = 6
            /\ Forall (fun c => c ∈ ascii_letters ++ digits)
                 (generate_short_code 6 draws pos).1).
  { intros draws pos.
    destruct (generate_short_code_shape 6 draws pos) as [Hlen Hall].
    split; [done|]. eapply Forall_impl; [exact Hall|].
    intros c. apply characters_alphanumeric. }
  split; [exact Hgen|].
  intros fuel draws now req w body w' Hrun.
  apply shorten_url_Ok_inv in Hrun as [(msg & [=] & _)|(s & n & _ & _ & _ & _ & [= ->] & _)].
  exists (candidate draws n), (strip s). split; [reflexivity|]. apply Hgen.
Qed.

Lemma generated_code_shape_witness :
  exists code url,
    created_body (py "localhost") (py "abcdef") (py "https://example.com/a/b")
    = created_body (py "localhost") code url
    /\ length code = 6
    /\ Forall (fun c => c ∈ ascii_letters ++ digits) code.
Proof.
  apply (proj2 (proj2 (proj2 generated_code_shape)) 0 (fun i => i) 1700%Z
           (mk_request (py "http") (py "localhost")
              (PDict [(py "url", PStr (py "  https://example.com/a/b "))]))
           empty_store _
           (store_with empty_store (py "abcdef")
              (py "https://example.com/a/b") 1700)).
  vm_compute. reflexivity.
Defined.

(** ** Validation *)


Lemma shorten_url_no_url_key fuel draws now req d w :
  get_json req = PDict d -> dict_get (py "url") d = None ->
  shorten_url fuel draws now req w
  = Ok (jsonify (error_body (py "Missing 'url' in request body")) 400) w.
Proof.
  intros Hd Hnone. unfold shorten_url. rewrite Hd. cbn [py_in].
  destruct (negb (truthy (PDict d))); unfold bind, ret; [done|].
  by rewrite Hnone, bool_decide_eq_false_2 by (by intros [? ?]).
Qed.


(** C4: the validation misses bodies that are not objects. A body that
    is the number 5, or the list [["url"]], carries no input URL, and the
    call raises [TypeError], which nothing catches, where a validation
    failure is due; the store is left as it was. *)
Theorem shorten_url_missing_url_raises :
  let number := mk_request (py "http") (py "localhost") (PInt 5) in
  let items := mk_request (py "http") (py "localhost")
                 (PList [PStr (py "url")]) in
  shorten_url 0 (fun i => i) 1700 number empty_store
  = Exn TypeError empty_store
  /\ shorten_url 0 (fun i => i) 1700 items empty_store
     = Exn TypeError empty_store
  /\ (forall msg w',
        shorten_url 0 (fun i => i) 1700 number empty_store
        <> Ok (jsonify (error_body msg) 400) w').
Proof.
  intros number items. split; [reflexivity|]. split; [reflexivity|].
  intros msg w'. discriminate.
Qed.



(** C10: on an object body, the validation branch answers 400 exactly
    when ["url"] is missing or is a string that trims to the empty
    string; when ["url"] is present with a value that is not a string,
    [strip] raises [AttributeError], which nothing catches, and no
    validation failure is returned. *)
Theorem shorten_url_non_string_url_raises fuel draws now req d w :
  get_json req = PDict d ->
  ((exists msg w',
      shorten_url fuel draws now req w = Ok (jsonify (error_body msg) 400) w')
   <-> (dict_get (py "url") d = None
        \/ exists s, dict_get (py "url") d = Some (PStr s) /\ strip s = []))
  /\ (forall v,
        dict_get (py "url") d = Some v -> (forall s, v <> PStr s) ->
        py_strip v w = Exn AttributeError w
        /\ shorten_url fuel draws now req w = Exn AttributeError w).
Proof.
  intros Hd. split.
  - split.
    + intros (msg & w' & Hrun).
      destruct (dict_get (py "url") d) as [v|] eqn:Hurl; [|by left].
      right. rewrite (shorten_url_dict _ _ _ _ d v) in Hrun by done.
      destruct v as [|b|z|m x|s|l|d']; try discriminate.
      exists s. split; [done|]. case_bool_decide as Hs; [done|].
      pose proof (create_mapping_spec fuel draws now req (strip s) w) as H.
      rewrite Hrun in H. by destruct H as (n & _ & _ & _ & [=] & _).
    + intros [Hnone|(s & Hurl & Hs)].
      * eexists _, w. by apply (shorten_url_no_url_key _ _ _ _ d).
      * eexists _, w. rewrite (shorten_url_dict _ _ _ _ d (PStr s)) by done.
        by rewrite bool_decide_eq_true_2.
  - intros v Hurl Hv. rewrite (shorten_url_dict _ _ _ _ d v) by done.
    destruct v as [|b|z|m x|s|l|d']; try done. by destruct (Hv s).
Qed.

Lemma shorten_url_non_string_url_raises_witness :
  let req := mk_request (py "http") (py "localhost")
               (PDict [(py "url", PInt 42)]) in
  py_strip (PInt 42) empty_store = Exn AttributeError empty_store
  /\ shorten_url 3 (fun i => i) 1700 req empty_store
     = Exn AttributeError empty_store.
Proof.
  intros req.
  apply (proj2 (shorten_url_non_string_url_raises 3 (fun i => i) 1700%Z req
                  [(py "url", PInt 42)] empty_store eq_refl) (PInt 42)).
  - reflexivity.
  - intros s. discriminate.
Defined.

(** A body that is not an object reaches [in] or the subscript with a
    value these reject, and the handler raises [TypeError]. *)
Example shorten_url_number_body :
  shorten_url 0 (fun i => i) 1700
    (mk_request (py "http") (py "localhost") (PInt 5)) empty_store
  = Exn TypeError empty_store.
Proof. reflexivity. Qed.

Example shorten_url_string_body :
  shorten_url 0 (fun i => i) 1700
    (mk_request (py "http") (py "localhost") (PStr (py "my url"))) empty_store
  = Exn TypeError empty_store.
Proof. vm_compute. reflexivity. Qed.

(** ** Resolution *)







(** ** Effect of a creation *)

(** C7: a shorten call that answers 201 went through its retry loop
    without changing the store, every candidate it gave up on being a
    code the store already held, and then made one insert that succeeded:
    the table is the old table followed by one new row, and the sequence
    advanced by one. *)
Theorem shorten_url_single_insert fuel draws now req w body w' :
  shorten_url fuel draws now req w = Ok (jsonify body 201) w' ->
  exists code url,
    body = created_body (host req) code url
    /\ shorten_url_loop fuel draws 6 (candidate draws 0) w = Ok code w
    /\ insert_url code url now w = Ok tt w'
    /\ (code ∉ codes w)
    /\ urls w' = urls w ++ [mk_row (urls_id_seq w) code url (Some now)]
    /\ urls_id_seq w' = S (urls_id_seq w).
Proof.
  intros Hrun.
  destruct (shorten_url_Ok_inv _ _ _ _ _ _ _ Hrun)
    as [(msg & [=] & _)|(s & n & Hvalid & Hn & Hfresh & Hall & [= ->] & ->)].
  exists (candidate draws n), (strip s). split; [done|].
  rewrite (shorten_url_valid _ _ _ _ s) in Hrun by done.
  pose proof (create_mapping_Ok_adaptable _ _ _ _ _ _ _ _ Hrun) as Hurl.
  unfold create_mapping in Hrun.
  pose proof (shorten_url_loop_spec fuel draws 0 w) as Hloop.
  change (6 * 1) with 6 in Hloop.
  destruct (shorten_url_loop fuel draws 6 _ w) as [code w1| |]; [|done..].
  destruct Hloop as (-> & m & Hm & -> & Hfresh' & Hall').
  assert (m = n) as ->.
  { destruct (Nat.lt_trichotomy m n) as [Hlt|[->|Hlt]]; [|done|].
    - by specialize (Hall m Hlt).
    - exfalso. apply Hfresh, Hall'. lia. }
  split; [done|].
  split; [|done]. apply insert_url_fresh;
    [apply candidate_adaptable|done|rewrite candidate_length; lia|done].
Qed.

Lemma shorten_url_single_insert_witness :
  let w := store_with empty_store (py "abcdef") (py "https://example.com/") 5 in
  let draws := fun i => if bool_decide (i < 6) then i else 7 in
  exists code url,
    created_body (py "localhost") (py "hhhhhh") (py "https://example.org/")
    = created_body (py "localhost") code url
    /\ shorten_url_loop 1 draws 6 (candidate draws 0) w = Ok code w
    /\ insert_url code url 9 w
       = Ok tt (store_with w (py "hhhhhh") (py "https://example.org/") 9)
    /\ (code ∉ codes w)
    /\ urls (store_with w (py "hhhhhh") (py "https://example.org/") 9)
       = urls w ++ [mk_row (urls_id_seq w) code url (Some 9%Z)]
    /\ urls_id_seq (store_with w (py "hhhhhh") (py "https://example.org/") 9)
       = S (urls_id_seq w).
Proof.
  intros w draws.
  apply (shorten_url_single_insert 1 draws 9
           (mk_request (py "http") (py "localhost")
              (PDict [(py "url", PStr (py "https://example.org/"))])) w).
  vm_compute. reflexivity.
Defined.

(** ** Uniqueness of codes *)

Lemma unique_codes_store_with w code url now :
  unique_codes w -> code ∉ codes w ->
  unique_codes (store_with w code url now).
Proof.
  unfold unique_codes, codes, store_with. cbn [urls].
  intros Hnd Hfresh. rewrite fmap_app. apply NoDup_app.
  split; [done|]. split; [|apply NoDup_singleton].
  intros c Hc. cbn. rewrite list_elem_of_singleton. by intros ->.
Qed.

Lemma insert_url_unique code url now w w' :
  unique_codes w ->
  world_after (insert_url code url now w) = Some w' -> unique_codes w'.
Proof.
  intros Huniq. rewrite insert_url_eq.
  destruct (adaptable code); [|by intros [= <-]].
  destruct (adaptable url); [|by intros [= <-]].
  case_bool_decide; [by intros [= <-]|].
  case_bool_decide as Hin; cbn [world_after]; intros [= <-]; [done|].
  by apply unique_codes_store_with.
Qed.

Lemma list_urls_frame isoformat req w :
  exists r, list_urls isoformat req w = Ok r w.
Proof. by eexists. Qed.

Lemma run_unique c w w' :
  unique_codes w -> world_after (run c w) = Some w' -> unique_codes w'.
Proof.
  intros Huniq. destruct c as [fuel draws now req|code|isoformat req];
    cbn [run].
  - destruct (shorten_url fuel draws now req w) as [r w1|e w1|] eqn:Hrun;
      cbn [world_after]; intros [= <-].
    + apply shorten_url_Ok_inv in Hrun
        as [(msg & _ & ->)|(s & n & _ & _ & Hfresh & _ & _ & ->)]; [done|].
      by apply unique_codes_store_with.
    + by apply shorten_url_Exn_inv in Hrun as [-> _].
  - rewrite redirect_to_url_frame. by intros [= <-].
  - destruct (list_urls_frame isoformat req w) as [r ->]. by intros [= <-].
Qed.

(** C2: the store rejects an insert that would repeat a code, so no
    insert, and hence no request, takes a store with pairwise distinct
    codes to one without; starting from the empty store, after any
    sequence of requests no two rows share a code. *)
Theorem unique_codes_invariant :
  unique_codes empty_store
  /\ (forall code url now w w',
        unique_codes w ->
        world_after (insert_url code url now w) = Some w' -> unique_codes w')
  /\ (forall c w w',
        unique_codes w -> world_after (run c w) = Some w' -> unique_codes w')
  /\ (forall cs w', run_calls cs empty_store = Some w' -> unique_codes w').
Proof.
  split; [apply NoDup_nil_2|].
  split; [intros *; apply insert_url_unique|].
  split; [intros *; apply run_unique|].
  intros cs. assert (Hgen : forall w w', unique_codes w ->
                       run_calls cs w = Some w' -> unique_codes w').
  { induction cs as [|c cs IH]; intros w w' Huniq; cbn [run_calls].
    - by intros [= <-].
    - destruct (world_after (run c w)) as [w1|] eqn:Hrun; [|done].
      apply IH. by apply (run_unique c w). }
  intros w'. apply Hgen, NoDup_nil_2.
Qed.

Lemma unique_codes_invariant_witness :
  let url s := mk_request (py "http") (py "localhost") (PDict [(py "url", PStr s)]) in
  let again := fun i : nat => if bool_decide (i < 6) then i else 7 in
  unique_codes
    {| urls := [mk_row 1 (py "abcdef") (py "https://example.com/a") (Some 3%Z);
                mk_row 2 (py "hhhhhh") (py "https://example.com/b") (Some 4%Z)];
       urls_id_seq := 3 |}.
Proof.
  intros url again.
  apply (proj2 (proj2 (proj2 unique_codes_invariant))
           [Shorten 0 again 3 (url (py "https://example.com/a"));
            Resolve (py "abcdef");
            Shorten 1 again 4 (url (py "https://example.com/b"))]).
  vm_compute. reflexivity.
Defined.

(** ** Listing *)

#[global] Instance newer_first_total : Total newer_first.
Proof.
  intros r1 r2. unfold newer_first, ts_le.
  destruct (created_at r1), (created_at r2); auto. lia.
Qed.

#[global] Instance newer_first_trans : Transitive newer_first.
Proof.
  intros r1 r2 r3. unfold newer_first, ts_le.
  destruct (created_at r1), (created_at r2), (created_at r3); try done. lia.
Qed.

Lemma older_not_newer_first r1 r2 : older r1 r2 -> ~ newer_first r1 r2.
Proof.
  intros (t1 & t2 & H1 & H2 & Hlt). unfold newer_first, ts_le.
  rewrite H1, H2. lia.
Qed.

Lemma older_newer_first r1 r2 : older r1 r2 -> newer_first r2 r1.
Proof.
  intros (t1 & t2 & H1 & H2 & Hlt). unfold newer_first, ts_le.
  rewrite H1, H2. lia.
Qed.

Lemma older_trichotomy (l : list row) x y :
  StronglySorted older l -> x ∈ l -> y ∈ l ->
  x = y \/ older x y \/ older y x.
Proof.
  induction 1 as [|a l Hl IH Ha]; intros Hx Hy; [by inversion Hx|].
  rewrite Forall_forall in Ha.
  apply elem_of_cons in Hx as [->|Hx]; apply elem_of_cons in Hy as [->|Hy];
    auto.
Qed.

Lemma newest_first_reverse (l : list row) :
  StronglySorted older l -> merge_sort newer_first l = reverse l.
Proof.
  intros Hl. apply (StronglySorted_unique_strong newer_first).
  - intros x1 x2 Hx1 Hx2 H12 H21.
    rewrite merge_sort_Permutation in Hx1. rewrite elem_of_reverse in Hx2.
    destruct (older_trichotomy l x1 x2 Hl Hx1 Hx2) as [?|[Ho|Ho]]; [done|..];
      by apply older_not_newer_first in Ho.
  - apply StronglySorted_merge_sort; apply _.
  - apply Sorted_StronglySorted; [apply _|].
    apply StronglySorted_Sorted, Sorted_reverse in Hl.
    rewrite <- (list_fmap_id (reverse l)).
    eapply Sorted_fmap; [|exact Hl].
    intros x y Hxy. by apply older_newer_first.
  - by rewrite merge_sort_Permutation, reverse_Permutation.
Qed.

Lemma list_urls_eq isoformat req w :
  list_urls isoformat req w
  = Ok (jsonify (PList (url_entry isoformat req
                          <$> merge_sort newer_first (urls w))) 200) w.
Proof. reflexivity. Qed.

Lemma shorten_url_created_row fuel draws now req w body w' :
  shorten_url fuel draws now req w = Ok (jsonify body 201) w' ->
  exists r,
    urls w' = urls w ++ [r] /\ created_at r = Some now
    /\ body = created_body (host req) (short_code r) (original_url r).
Proof.
  intros Hrun. apply shorten_url_Ok_inv in Hrun
    as [(msg & [=] & _)|(s & n & _ & _ & _ & _ & [= ->] & ->)].
  by eexists (mk_row _ _ _ _).
Qed.

(** C6, as stated, fails: when the store's clock reads 30, 20 and 10 at
    the creations of A, B and C, the listing is A, B, C, not C, B, A. *)
Lemma list_urls_clock_stepping_back :
  let isoformat := fun _ : Z => py "2025-02-15T14:30:00" in
  let req := mk_request (py "http") (py "localhost") PNone in
  let url s := mk_request (py "http") (py "localhost")
                 (PDict [(py "url", PStr s)]) in
  let item c u :=
    PDict [(py "short_code", PStr c); (py "original_url", PStr u);
           (py "short_url", PStr (py "http://localhost/" ++ c));
           (py "created_at", PStr (py "2025-02-15T14:30:00"))] in
  exists wA wB wC,
    shorten_url 0 (fun _ => 0) 30 (url (py "https://example.com/A")) empty_store
    = Ok (jsonify (created_body (py "localhost") (py "aaaaaa")
                     (py "https://example.com/A")) 201) wA
    /\ shorten_url 0 (fun _ => 1) 20 (url (py "https://example.com/B")) wA
       = Ok (jsonify (created_body (py "localhost") (py "bbbbbb")
                        (py "https://example.com/B")) 201) wB
    /\ shorten_url 0 (fun _ => 2) 10 (url (py "https://example.com/C")) wB
       = Ok (jsonify (created_body (py "localhost") (py "cccccc")
                        (py "https://example.com/C")) 201) wC
    /\ list_urls isoformat req wC
       = Ok (jsonify (PList [item (py "aaaaaa") (py "https://example.com/A");
                             item (py "bbbbbb") (py "https://example.com/B");
                             item (py "cccccc") (py "https://example.com/C")])
               200) wC
    /\ list_urls isoformat req wC
       <> Ok (jsonify (PList [item (py "cccccc") (py "https://example.com/C");
                              item (py "bbbbbb") (py "https://example.com/B");
                              item (py "aaaaaa") (py "https://example.com/A")])
                200) wC.
Proof.
  intros isoformat req url item. eexists _, _, _.
  split; [vm_compute; reflexivity|]. split; [vm_compute; reflexivity|].
  split; [vm_compute; reflexivity|]. split; [vm_compute; reflexivity|].
  vm_compute. discriminate.
Qed.

(** C6, amended: the listing shows every stored row once, each with its
    code, its URL, the link built for the listing request and its
    creation time, newest [created_at] first; when the store's clock read
    strictly increasing times along the insertions the listing is the
    insertion order reversed, so that mappings A, B, C created in that
    order from the empty store at strictly increasing times are listed as
    C, B, A. *)
Theorem list_urls_newest_first isoformat req :
  let entry r :=
    PDict [(py "short_code", PStr (short_code r));
           (py "original_url", PStr (original_url r));
           (py "short_url",
             PStr (py "http://" ++ host req ++ py "/" ++ short_code r));
           (py "created_at",
             match created_at r with
             | Some t => PStr (isoformat t)
             | None => PNone
             end)] in
  (forall w, exists rows,
      list_urls isoformat req w = Ok (jsonify (PList (entry <$> rows)) 200) w
      /\ rows ≡ₚ urls w /\ StronglySorted newer_first rows)
  /\ (forall w, StronglySorted older (urls w) ->
        list_urls isoformat req w
        = Ok (jsonify (PList (entry <$> reverse (urls w))) 200) w)
  /\ (forall fA dA tA reqA fB dB tB reqB fC dC tC reqC bA bB bC wA wB wC,
        shorten_url fA dA tA reqA empty_store = Ok (jsonify bA 201) wA ->
        shorten_url fB dB tB reqB wA = Ok (jsonify bB 201) wB ->
        shorten_url fC dC tC reqC wB = Ok (jsonify bC 201) wC ->
        (tA < tB < tC)%Z ->
        exists a b c,
          urls wC = [a; b; c]
          /\ bA = created_body (host reqA) (short_code a) (original_url a)
          /\ bB = created_body (host reqB) (short_code b) (original_url b)
          /\ bC = created_body (host reqC) (short_code c) (original_url c)
          /\ created_at a = Some tA /\ created_at b = Some tB
          /\ created_at c = Some tC
          /\ list_urls isoformat req wC
             = Ok (jsonify (PList [entry c; entry b; entry a]) 200) wC).
Proof.
  intros entry. split; [|split].
  - intros w. exists (merge_sort newer_first (urls w)).
    split; [apply list_urls_eq|]. split; [apply merge_sort_Permutation|].
    apply StronglySorted_merge_sort; apply _.
  - intros w Hw. by rewrite list_urls_eq, newest_first_reverse.
  - intros * HA HB HC Ht.
    apply shorten_url_created_row in HA as (a & Ha & Hta & ->).
    apply shorten_url_created_row in HB as (b & Hb & Htb & ->).
    apply shorten_url_created_row in HC as (c & Hc & Htc & ->).
    rewrite Ha in Hb. rewrite Hb in Hc. cbn in Hc.
    exists a, b, c. do 7 (split; [done|]).
    rewrite list_urls_eq, Hc, newest_first_reverse; [done|].
    repeat constructor; unfold older; rewrite ?Hta, ?Htb, ?Htc;
      eexists _, _; (split; [done|]); (split; [done|]); lia.
Qed.

Lemma list_urls_newest_first_witness :
  let isoformat := fun _ : Z => py "2025-02-15T14:30:00" in
  let req := mk_request (py "http") (py "localhost") PNone in
  let url s := mk_request (py "http") (py "localhost") (PDict [(py "url", PStr s)]) in
  let entry r :=
    PDict [(py "short_code", PStr (short_code r));
           (py "original_url", PStr (original_url r));
           (py "short_url",
             PStr (py "http://" ++ host req ++ py "/" ++ short_code r));
           (py "created_at",
             match created_at r with
             | Some t => PStr (isoformat t)
             | None => PNone
             end)] in
  let a := mk_row 1 (py "aaaaaa") (py "https://example.com/A") (Some 10%Z) in
  let b := mk_row 2 (py "bbbbbb") (py "https://example.com/B") (Some 20%Z) in
  let c := mk_row 3 (py "cccccc") (py "https://example.com/C") (Some 30%Z) in
  let wC := {| urls := [a; b; c]; urls_id_seq := 4 |} in
  exists a' b' c',
    urls wC = [a'; b'; c']
    /\ created_body (py "localhost") (py "aaaaaa") (py "https://example.com/A")
       = created_body (py "localhost") (short_code a') (original_url a')
    /\ created_body (py "localhost") (py "bbbbbb") (py "https://example.com/B")
       = created_body (py "localhost") (short_code b') (original_url b')
    /\ created_body (py "localhost") (py "cccccc") (py "https://example.com/C")
       = created_body (py "localhost") (short_code c') (original_url c')
    /\ created_at a' = Some 10%Z /\ created_at b' = Some 20%Z
    /\ created_at c' = Some 30%Z
    /\ list_urls isoformat req wC
       = Ok (jsonify (PList [entry c'; entry b'; entry a']) 200) wC.
Proof.
  intros isoformat req url entry a b c wC.
  apply (proj2 (proj2 (list_urls_newest_first isoformat req))
           0 (fun _ => 0) 10%Z (url (py "https://example.com/A"))
           0 (fun _ => 1) 20%Z (url (py "https://example.com/B"))
           0 (fun _ => 2) 30%Z (url (py "https://example.com/C"))
           _ _ _
           {| urls := [a]; urls_id_seq := 2 |}
           {| urls := [a; b]; urls_id_seq := 3 |} wC).
  - vm_compute. reflexivity.
  - vm_compute. reflexivity.
  - vm_compute. reflexivity.
  - lia.
Defined.

(** ** The short link *)

(** C9, as stated, fails: a request that came in over https is answered
    with a short link that starts with ["http://"], which is not the
    request's origin followed by ["/"] and the code. *)
Lemma short_url_not_origin_https :
  let req := mk_request (py "https") (py "sho.rt")
               (PDict [(py "url", PStr (py "https://example.com/a/b"))]) in
  exists code link url w',
    shorten_url 0 (fun i => i) 1700 req empty_store
    = Ok (jsonify (PDict [(py "short_code", PStr code);
                          (py "short_url", PStr link);
                          (py "original_url", PStr url)]) 201) w'
    /\ link = py "http://sho.rt/abcdef"
    /\ origin req ++ py "/" ++ code = py "https://sho.rt/abcdef"
    /\ link <> origin req ++ py "/" ++ code.
Proof.
  intros req. eexists _, _, _, _. split; [vm_compute; reflexivity|].
  split; [reflexivity|]. split; [reflexivity|]. vm_compute. discriminate.
Qed.

(** C9, amended: the short link of a 201 answer, and of every entry of
    the listing, is ["http://"] followed by the [Host] of the inbound
    request, ["/"] and the code; the host is read from the request and
    the scheme is the fixed ["http"], so the link starts with the
    request's origin exactly when the request came in over http. *)
Theorem short_url_from_request_host :
  (forall fuel draws now req w body w',
     shorten_url fuel draws now req w = Ok (jsonify body 201) w' ->
     exists code url,
       body = PDict [(py "short_code", PStr code);
                     (py "short_url",
                       PStr (py "http://" ++ host req ++ py "/" ++ code));
                     (py "original_url", PStr url)])
  /\ (forall isoformat req url,
        exists stamp,
          url_entry isoformat req url
          = PDict [(py "short_code", PStr (short_code url));
                   (py "original_url", PStr (original_url url));
                   (py "short_url",
                     PStr (py "http://" ++ host req ++ py "/" ++ short_code url));
                   (py "created_at", stamp)])
  /\ (forall req code,
        py "http://" ++ host req ++ py "/" ++ code
        = origin req ++ py "/" ++ code
        <-> scheme req = py "http").
Proof.
  split; [|split].
  - intros fuel draws now req w body w' Hrun.
    apply shorten_url_Ok_inv in Hrun
      as [(msg & [=] & _)|(s & n & _ & _ & _ & _ & [= ->] & _)].
    by eexists _, _.
  - intros isoformat req url. by eexists.
  - intros req code. unfold origin. split.
    + intros Heq.
      change (py "http://") with (py "http" ++ py "://") in Heq.
      rewrite <- !app_assoc in Heq. symmetry. by apply app_inv_tail in Heq.
    + intros ->. by rewrite <- !app_assoc.
Qed.

Lemma short_url_from_request_host_witness :
  let req := mk_request (py "https") (py "sho.rt")
               (PDict [(py "url", PStr (py "https://example.com/a/b"))]) in
  exists code url,
    created_body (py "sho.rt") (py "abcdef") (py "https://example.com/a/b")
    = PDict [(py "short_code", PStr code);
             (py "short_url",
               PStr (py "http://" ++ host req ++ py "/" ++ code));
             (py "original_url", PStr url)].
Proof.
  intros req.
  apply (proj1 short_url_from_request_host 0 (fun i => i) 1700%Z req
           empty_store _
           (store_with empty_store (py "abcdef")
              (py "https://example.com/a/b") 1700)).
  vm_compute. reflexivity.
Defined.

(** * Further properties *)

(** ** The generator at any length *)

Lemma choices_lookup population k draws pos i :
  i < k ->
  choices population k draws pos !! i
  = Some (nth (draws (pos + i) mod length population) population 0%N).
Proof.
  intros Hi. unfold choices. rewrite list_lookup_fmap, lookup_seq_lt by done.
  reflexivity.
Qed.

(** X1: at every length [n], zero included, the generator returns [n]
    characters of the alphabet, the [i]-th one picked by the [i]-th draw
    it reads; it reads exactly the [n] draws from its position on and
    hands back the position after them. *)
Theorem generate_short_code_any_length n draws pos :
  length (generate_short_code n draws pos).1 = n
  /\ (generate_short_code n draws pos).2 = pos + n
  /\ Forall (fun c => c ∈ ascii_letters ++ digits)
       (generate_short_code n draws pos).1
  /\ (forall i, i < n ->
        (generate_short_code n draws pos).1 !! i
        = (ascii_letters ++ digits) !! (draws (pos + i) mod 62))
  /\ (forall draws',
        (forall i, pos <= i < pos + n -> draws' i = draws i) ->
        generate_short_code n draws' pos = generate_short_code n draws pos).
Proof.
  split; [apply choices_length|]. split; [done|].
  split.
  { apply Forall_forall. intros c. by apply choices_elem_of. }
  split.
  - intros i Hi. cbn [generate_short_code fst].
    rewrite choices_lookup by done. rewrite characters_length.
    rewrite nth_lookup.
    destruct (lookup_lt_is_Some_2 (ascii_letters ++ digits)
                (draws (pos + i) mod 62)) as [c ->]; [|done].
    rewrite characters_length. by apply Nat.mod_upper_bound.
  - intros draws' Hsame. unfold generate_short_code. f_equal.
    unfold choices. apply Forall_fmap_ext, Forall_forall.
    intros i Hi%elem_of_seq. rewrite Hsame; [done | lia].
Qed.

Lemma index_in_spec population c :
  c ∈ population ->
  index_in population c < length population
  /\ nth (index_in population c) population 0%N = c.
Proof.
  intros Hc. unfold index_in.
  destruct (list_find (fun x => x = c) population) as [[i x]|] eqn:Hf.
  - apply list_find_Some in Hf as (Hi & -> & _).
    split; [by eapply lookup_lt_Some|].
    by rewrite nth_lookup, Hi.
  - apply list_find_None in Hf. rewrite Forall_forall in Hf.
    by destruct (Hf c Hc).
Qed.

(** X2: every string over the alphabet, of any length, is a code the
    generator returns for suitable draws: no code of the space is out of
    its reach. *)
Theorem generate_short_code_reaches code pos :
  Forall (fun c => c ∈ ascii_letters ++ digits) code ->
  (generate_short_code (length code) (draws_for code pos) pos).1 = code.
Proof.
  intros Hcode. cbn [generate_short_code fst].
  apply list_eq. intros i.
  destruct (decide (i < length code)) as [Hi|Hi].
  - rewrite choices_lookup by done. unfold draws_for.
    replace (pos + i - pos) with i by lia.
    destruct (lookup_lt_is_Some_2 code i Hi) as [c Hc].
    rewrite Hc, (nth_lookup code), Hc. cbn [default from_option].
    unfold Datatypes.id. rewrite Forall_forall in Hcode.
    destruct (index_in_spec (ascii_letters ++ digits) c) as [Hlt Hnth].
    { apply Hcode. by eapply list_elem_of_lookup_2. }
    rewrite Nat.mod_small by done. by rewrite Hnth.
  - rewrite !lookup_ge_None_2; [done|lia|rewrite choices_length; lia].
Qed.

Lemma generate_short_code_reaches_witness :
  (generate_short_code (length (py "aB7xkT")) (draws_for (py "aB7xkT") 12) 12).1
  = py "aB7xkT".
Proof.
  apply (generate_short_code_reaches (py "aB7xkT") 12).
  apply (bool_decide_unpack _). vm_compute. exact I.
Defined.

(** ** What trimming keeps *)

Lemma lstrip_split (s : pystr) :
  exists lead, s = lead ++ lstrip s /\ Forall (fun c => c ∈ whitespace) lead.
Proof.
  induction s as [|c s (lead & Hs & Hlead)]; [by exists []|].
  cbn [lstrip]. destruct (isspace c) eqn:Hc.
  - exists (c :: lead). split; [by rewrite Hs at 1|].
    constructor; [|done]. by apply bool_decide_eq_true_1 in Hc.
  - by exists [].
Qed.

Lemma rstrip_split (s : pystr) :
  exists trail, s = rstrip s ++ trail /\ Forall (fun c => c ∈ whitespace) trail.
Proof.
  destruct (lstrip_split (reverse s)) as (lead & Hs & Hlead).
  exists (reverse lead). split; [|by apply Forall_reverse].
  unfold rstrip. rewrite <- reverse_app, <- Hs. by rewrite reverse_involutive.
Qed.

Lemma lstrip_head_not_space (s : pystr) c :
  head (lstrip s) = Some c -> c ∉ whitespace.
Proof.
  destruct (lstrip s) as [|a t] eqn:Hs; [done|]. intros [= ->].
  apply lstrip_head in Hs. by apply bool_decide_eq_false_1 in Hs.
Qed.

Lemma lstrip_fixed (s : pystr) :
  (forall c, head s = Some c -> c ∉ whitespace) -> lstrip s = s.
Proof.
  destruct s as [|a s]; [done|]. intros Ha. cbn [lstrip].
  unfold isspace. by rewrite bool_decide_eq_false_2 by (by apply Ha).
Qed.

(** The trimmed string is the input between a leading and a trailing run
    of whitespace, and neither begins nor ends with whitespace. *)
Lemma strip_spec (s : pystr) :
  (exists lead trail,
     s = lead ++ strip s ++ trail
     /\ Forall (fun c => c ∈ whitespace) lead
     /\ Forall (fun c => c ∈ whitespace) trail)
  /\ (forall c, head (strip s) = Some c -> c ∉ whitespace)
  /\ (forall c, last (strip s) = Some c -> c ∉ whitespace)
  /\ strip (strip s) = strip s.
Proof.
  assert (Hfirst : forall c, head (strip s) = Some c -> c ∉ whitespace).
  { intros c Hc. unfold strip in Hc.
    destruct (rstrip_split (lstrip s)) as (trail & Hs & _).
    apply (lstrip_head_not_space s). rewrite Hs.
    by destruct (rstrip (lstrip s)). }
  assert (Hlast : forall c, last (strip s) = Some c -> c ∉ whitespace).
  { intros c Hc. unfold strip, rstrip in Hc.
    rewrite last_reverse in Hc. by apply lstrip_head_not_space in Hc. }
  split; [|split; [done|split; [done|]]].
  - destruct (lstrip_split s) as (lead & Hs & Hlead).
    destruct (rstrip_split (lstrip s)) as (trail & Hs' & Htrail).
    exists lead, trail. split; [|done]. unfold strip. by rewrite <- Hs'.
  - unfold strip at 1. rewrite (lstrip_fixed (strip s)) by done.
    unfold rstrip. rewrite lstrip_fixed.
    + apply reverse_involutive.
    + intros c. rewrite head_reverse. apply Hlast.
Qed.

(** X3: the URL a successful shorten stores and echoes is the submitted
    string between its leading and trailing whitespace: nothing else is
    removed or changed, and what is stored is non-empty and neither
    begins nor ends with whitespace. *)
Theorem shorten_url_stores_trimmed fuel draws now req s w r w' :
  valid_url_request req s ->
  shorten_url fuel draws now req w = Ok r w' ->
  exists code url lead trail,
    r = jsonify (created_body (host req) code url) 201
    /\ urls w' = urls w ++ [mk_row (urls_id_seq w) code url (Some now)]
    /\ s = lead ++ url ++ trail
    /\ Forall (fun c => c ∈ whitespace) lead
    /\ Forall (fun c => c ∈ whitespace) trail
    /\ url <> []
    /\ (forall c, head url = Some c -> c ∉ whitespace)
    /\ (forall c, last url = Some c -> c ∉ whitespace).
Proof.
  intros Hvalid Hrun.
  destruct (shorten_url_valid_Ok_inv _ _ _ _ _ _ _ _ Hvalid Hrun)
    as (n & _ & _ & _ & -> & ->).
  destruct Hvalid as (d & _ & _ & Hs).
  destruct (strip_spec s) as ((lead & trail & Hsplit & Hlead & Htrail)
                               & Hfirst & Hlast & _).
  by exists (candidate draws n), (strip s), lead, trail.
Qed.

Lemma shorten_url_stores_trimmed_witness :
  let url := py "https://example.com/a b" in
  let s := py " " ++ [9%N] ++ url ++ [10%N; 160%N] in
  exists code url' lead trail,
    jsonify (created_body (py "localhost") (py "abcdef") url) 201
    = jsonify (created_body (py "localhost") code url') 201
    /\ urls (store_with empty_store (py "abcdef") url 1700)
       = urls empty_store ++ [mk_row (urls_id_seq empty_store) code url' (Some 1700%Z)]
    /\ s = lead ++ url' ++ trail
    /\ Forall (fun c => c ∈ whitespace) lead
    /\ Forall (fun c => c ∈ whitespace) trail
    /\ url' <> []
    /\ (forall c, head url' = Some c -> c ∉ whitespace)
    /\ (forall c, last url' = Some c -> c ∉ whitespace).
Proof.
  intros url s.
  apply (shorten_url_stores_trimmed 0 (fun i => i) 1700
           (mk_request (py "http") (py "localhost") (PDict [(py "url", PStr s)]))
           s empty_store).
  - eexists. split; [reflexivity|]. split; [reflexivity|].
    vm_compute. discriminate.
  - vm_compute. reflexivity.
Defined.

(** ** Bodies that are not objects *)

(** X4: a body that is not a JSON object never creates a mapping. When it
    is falsy the answer is 400; a truthy number or boolean makes the
    membership test raise [TypeError]; a list or string is answered 400
    unless it contains ["url"], in which case the string subscript raises
    [TypeError]. The store is left as it was in every case. *)
Theorem shorten_url_non_object_body fuel draws now req w :
  (forall d, get_json req <> PDict d) ->
  let bad_request :=
    Ok (jsonify (error_body (py "Missing 'url' in request body")) 400) w in
  shorten_url fuel draws now req w =
  if negb (truthy (get_json req)) then bad_request
  else match get_json req with
       | PList l =>
           if existsb (is_str (py "url")) l then Exn TypeError w
           else bad_request
       | PStr t =>
           if str_contains (py "url") t then Exn TypeError w else bad_request
       | _ => Exn TypeError w
       end.
Proof.
  intros Hobj bad_request. unfold shorten_url, bad_request.
  destruct (get_json req) as [|b|z|m e|t|l|d]; cbn [truthy py_in py_getitem];
    unfold bind, ret, raise.
  - done.
  - by destruct b.
  - by destruct (z =? 0)%Z.
  - by destruct (m =? 0)%Z.
  - destruct (negb (negb _)); [done|]. by destruct (str_contains _ _).
  - destruct (negb _); [done|]. by destruct (existsb _ _).
  - by destruct (Hobj d).
Qed.

Lemma shorten_url_non_object_body_witness :
  let req := mk_request (py "http") (py "localhost")
               (PList [PInt 1; PStr (py "url")]) in
  let bad_request :=
    Ok (jsonify (error_body (py "Missing 'url' in request body")) 400)
       empty_store in
  shorten_url 0 (fun i => i) 1700 req empty_store =
  if negb (truthy (get_json req)) then bad_request
  else match get_json req with
       | PList l =>
           if existsb (is_str (py "url")) l then Exn TypeError empty_store
           else bad_request
       | PStr t =>
           if str_contains (py "url") t then Exn TypeError empty_store
           else bad_request
       | _ => Exn TypeError empty_store
       end.
Proof.
  intros req.
  apply (shorten_url_non_object_body 0 (fun i => i) 1700%Z req empty_store).
  intros d. discriminate.
Defined.

(** ** Failures of [shorten_url] *)

(** X5: a URL that passes validation but that the driver cannot bind
    (it holds U+0000 or a lone surrogate) is never answered 201: once a
    free candidate is found the INSERT raises [UnicodeEncodeError] for a
    surrogate and [ValueError] otherwise, and the store is left as it
    was. *)
Theorem shorten_url_unstorable_url fuel draws now req s w :
  valid_url_request req s ->
  adaptable (strip s) = false ->
  (forall r w', shorten_url fuel draws now req w <> Ok r w')
  /\ (forall n,
        n <= fuel -> candidate draws n ∉ codes w ->
        shorten_url fuel draws now req w
        = Exn (if existsb is_surrogate (strip s) then UnicodeEncodeError
               else ValueError) w).
Proof.
  intros Hvalid Hurl. rewrite (shorten_url_valid _ _ _ _ s) by done.
  pose proof (create_mapping_spec fuel draws now req (strip s) w) as Hspec.
  split.
  - intros r w' Hrun.
    apply create_mapping_Ok_adaptable in Hrun. congruence.
  - intros n Hn Hfree.
    destruct (create_mapping fuel draws now req (strip s) w) as [r w'|e w'|]
      eqn:Hrun.
    + apply create_mapping_Ok_adaptable in Hrun. congruence.
    + by destruct Hspec as (-> & _ & -> & _).
    + exfalso. by apply Hfree, Hspec.
Qed.

Lemma shorten_url_unstorable_url_witness :
  let s := py "https://example.com/a" ++ [0%N] ++ py "b" in
  let req := mk_request (py "http") (py "localhost")
               (PDict [(py "url", PStr s)]) in
  (forall r w', shorten_url 0 (fun i => i) 1700 req empty_store <> Ok r w')
  /\ (forall n,
        n <= 0 -> candidate (fun i => i) n ∉ codes empty_store ->
        shorten_url 0 (fun i => i) 1700 req empty_store
        = Exn (if existsb is_surrogate (strip s) then UnicodeEncodeError
               else ValueError) empty_store).
Proof.
  intros s req.
  apply (shorten_url_unstorable_url 0 (fun i => i) 1700 req s empty_store).
  - eexists. split; [reflexivity|]. split; [reflexivity|].
    vm_compute. discriminate.
  - vm_compute. reflexivity.
Defined.

(** ** The retry policy *)

(** X6: on a valid request whose trimmed URL the driver can bind (no
    U+0000, no lone surrogate) shorten takes the first candidate the
    store does not hold: with [n] earlier candidates all taken and the
    next one free, it answers 201 with that candidate and appends its
    row, whatever fuel beyond [n] it is given. *)
Theorem shorten_url_first_free fuel draws now req s w n :
  valid_url_request req s ->
  adaptable (strip s) = true ->
  n <= fuel ->
  (forall j, j < n -> candidate draws j ∈ codes w) ->
  candidate draws n ∉ codes w ->
  shorten_url fuel draws now req w
  = Ok (jsonify (created_body (host req) (candidate draws n) (strip s)) 201)
       (store_with w (candidate draws n) (strip s) now).
Proof.
  intros Hvalid Hurl Hn Htaken Hfree.
  rewrite (shorten_url_valid _ _ _ _ s) by done.
  pose proof (create_mapping_spec fuel draws now req (strip s) w) as Hspec.
  destruct (create_mapping fuel draws now req (strip s) w) as [r w'|e w'|].
  2: { destruct Hspec as (_ & Hurl' & _). congruence. }
  - destruct Hspec as (m & Hm & Hfree' & Htaken' & -> & ->).
    assert (m = n) as ->; [|done].
    destruct (Nat.lt_trichotomy m n) as [Hlt|[->|Hlt]]; [|done|].
    + by specialize (Htaken m Hlt).
    + by specialize (Htaken' n Hlt).
  - exfalso. by apply Hfree, Hspec.
Qed.

Lemma shorten_url_first_free_witness :
  let w := store_with empty_store (py "abcdef") (py "https://example.com/") 5 in
  let draws := fun i => if bool_decide (i < 6) then i else 7 in
  let req := mk_request (py "http") (py "localhost")
               (PDict [(py "url", PStr (py "https://example.org/"))]) in
  shorten_url 4 draws 9 req w
  = Ok (jsonify (created_body (host req) (candidate draws 1)
                   (strip (py "https://example.org/"))) 201)
       (store_with w (candidate draws 1) (strip (py "https://example.org/")) 9).
Proof.
  intros w draws req.
  apply (shorten_url_first_free 4 draws 9 req (py "https://example.org/") w 1).
  - eexists. split; [reflexivity|]. split; [reflexivity|].
    vm_compute. discriminate.
  - vm_compute. reflexivity.
  - lia.
  - intros j Hj. replace j with 0 by lia.
    apply (bool_decide_unpack _). vm_compute. exact I.
  - apply (bool_decide_unpack _). vm_compute. exact I.
Defined.

Lemma shorten_url_OutOfFuel_valid fuel draws now req w :
  shorten_url fuel draws now req w = OutOfFuel ->
  exists s, valid_url_request req s.
Proof.
  intros Hrun.
  destruct (get_json req) as [|b|z|m x|t|l|d] eqn:Hd.
  1-6: rewrite shorten_url_non_object_body in Hrun
         by (rewrite Hd; by intros d);
       rewrite Hd in Hrun; cbn [truthy] in Hrun;
       repeat match type of Hrun with
              | (if ?b then _ else _) = _ => destruct b
              end; congruence.
  destruct (dict_get (py "url") d) as [v|] eqn:Hurl.
  - rewrite (shorten_url_dict _ _ _ _ d v) in Hrun by done.
    destruct v as [|b|z|m x|s|l|d']; try done.
    case_bool_decide as Hs; [done|]. exists s. by exists d.
  - by rewrite (shorten_url_no_url_key _ _ _ _ d) in Hrun.
Qed.

(** X7: the loop has no retry cap. Shorten fails to return within [fuel]
    retries exactly when the request is valid and its first [fuel + 1]
    candidates are all taken; so when every candidate the draws yield is
    taken, it does not return for any amount of fuel. *)
Theorem shorten_url_no_retry_cap draws now req w :
  (forall fuel,
     shorten_url fuel draws now req w = OutOfFuel
     <-> (exists s, valid_url_request req s)
         /\ forall j, j <= fuel -> candidate draws j ∈ codes w)
  /\ ((exists s, valid_url_request req s) ->
      (forall j, candidate draws j ∈ codes w) ->
      forall fuel, shorten_url fuel draws now req w = OutOfFuel).
Proof.
  assert (Hiff : forall fuel,
            shorten_url fuel draws now req w = OutOfFuel
            <-> (exists s, valid_url_request req s)
                /\ forall j, j <= fuel -> candidate draws j ∈ codes w).
  { intros fuel. split.
    - intros Hrun. destruct (shorten_url_OutOfFuel_valid _ _ _ _ _ Hrun)
        as [s Hvalid].
      split; [by exists s|].
      rewrite (shorten_url_valid _ _ _ _ s) in Hrun by done.
      pose proof (create_mapping_spec fuel draws now req (strip s) w) as Hspec.
      by rewrite Hrun in Hspec.
    - intros [[s Hvalid] Htaken].
      rewrite (shorten_url_valid _ _ _ _ s) by done.
      pose proof (create_mapping_spec fuel draws now req (strip s) w) as Hspec.
      destruct (create_mapping fuel draws now req (strip s) w) as [r w'|e w'|];
        [| |done].
      + destruct Hspec as (n & Hn & Hfree & _). destruct Hfree.
        by apply Htaken.
      + destruct Hspec as (_ & _ & _ & n & Hn & Hfree). destruct Hfree.
        by apply Htaken. }
  split; [done|]. intros Hvalid Htaken fuel. apply Hiff. by split.
Qed.

Lemma shorten_url_no_retry_cap_witness :
  let w := store_with empty_store (py "aaaaaa") (py "https://example.com/") 5 in
  let req := mk_request (py "http") (py "localhost")
               (PDict [(py "url", PStr (py "https://example.org/"))]) in
  shorten_url 1000 (fun _ => 0) 9 req w = OutOfFuel.
Proof.
  intros w req.
  apply (proj2 (shorten_url_no_retry_cap (fun _ => 0) 9%Z req w)).
  - exists (py "https://example.org/"). eexists.
    split; [reflexivity|]. split; [reflexivity|]. vm_compute. discriminate.
  - intros j. apply list_elem_of_In. left. reflexivity.
Defined.

(** ** The table only grows *)

Lemma run_step c w w' :
  world_after (run c w) = Some w' ->
  w' = w
  \/ exists fuel draws now req s n,
       c = Shorten fuel draws now req
       /\ valid_url_request req s
       /\ (candidate draws n ∉ codes w)
       /\ run c w
          = Ok (jsonify (created_body (host req) (candidate draws n) (strip s))
                  201) w'
       /\ w' = store_with w (candidate draws n) (strip s) now.
Proof.
  destruct c as [fuel draws now req|code|isoformat req]; cbn [run].
  - destruct (shorten_url fuel draws now req w) as [r w1|e w1|] eqn:Hrun;
      cbn [world_after]; intros [= <-].
    + apply shorten_url_Ok_inv in Hrun
        as [(msg & _ & ->)|(s & n & Hvalid & _ & Hfresh & _ & -> & ->)];
        [by left|].
      right. by exists fuel, draws, now, req, s, n.
    + apply shorten_url_Exn_inv in Hrun as [-> _]. by left.
  - rewrite redirect_to_url_frame. intros [= <-]. by left.
  - destruct (list_urls_frame isoformat req w) as [r ->]. intros [= <-].
    by left.
Qed.

Lemma run_calls_appends cs w w' :
  run_calls cs w = Some w' ->
  exists added, urls w' = urls w ++ added /\ length added <= length cs.
Proof.
  revert w. induction cs as [|c cs IH]; intros w; cbn [run_calls].
  - intros [= <-]. exists []. by rewrite app_nil_r.
  - destruct (world_after (run c w)) as [w1|] eqn:Hrun; [|done].
    intros (added & Hadded & Hlen)%IH.
    apply run_step in Hrun as [->|(? & ? & now & ? & s & n & _ & _ & _ & _ & ->)].
    + exists added. split; [done|]. cbn. lia.
    + eexists (_ :: added). cbn [store_with urls] in Hadded.
      rewrite <- app_assoc in Hadded. split; [exact Hadded|]. cbn. lia.
Qed.

(** X8: no request updates or deletes a row. A request leaves the store
    as it was unless it is a shorten answering 201, which appends one
    row; after any sequence of requests the old table is a prefix of the
    new one, with at most one row added per request. *)
Theorem store_only_grows :
  (forall c w w',
     world_after (run c w) = Some w' ->
     w' = w
     \/ exists fuel draws now req code url,
          c = Shorten fuel draws now req
          /\ run c w = Ok (jsonify (created_body (host req) code url) 201) w'
          /\ urls w' = urls w ++ [mk_row (urls_id_seq w) code url (Some now)])
  /\ (forall cs w w',
        run_calls cs w = Some w' ->
        exists added, urls w' = urls w ++ added /\ length added <= length cs).
Proof.
  split; [|apply run_calls_appends].
  intros c w w' Hrun.
  apply run_step in Hrun
    as [->|(fuel & draws & now & req & s & n & -> & _ & _ & Hrun & ->)];
    [by left|].
  right. by exists fuel, draws, now, req, (candidate draws n), (strip s).
Qed.

(** ** Links are permanent *)

Lemma find_app_Some {A} (f : A -> bool) (l k : list A) x :
  find f l = Some x -> find f (l ++ k) = Some x.
Proof.
  induction l as [|a l IH]; [done|]. cbn. by destruct (f a).
Qed.

Lemma redirect_to_url_found code w url status :
  redirect_to_url code w = Ok (Redirect url status) w ->
  status = 302 /\ adaptable code = true
  /\ existsb is_newline url = false
  /\ exists r, find (has_code code) (urls w) = Some r /\ original_url r = url.
Proof.
  rewrite redirect_to_url_eq. destruct (adaptable code); [|done].
  destruct (find (has_code code) (urls w)) as [r|]; [|done].
  rewrite redirect_eq. destruct (existsb _ _) eqn:Hline; [done|].
  intros [= <- <-]. do 3 (split; [done|]). by exists r.
Qed.

(** X9: once a code redirects to a URL it keeps redirecting to that URL
    after any further sequence of requests, whatever they create. *)
Theorem redirect_is_permanent code url status cs w w' :
  redirect_to_url code w = Ok (Redirect url status) w ->
  run_calls cs w = Some w' ->
  redirect_to_url code w' = Ok (Redirect url status) w'.
Proof.
  intros Hfound Hcs.
  destruct (redirect_to_url_found _ _ _ _ Hfound)
    as (-> & Hcode & Hline & r & Hfind & <-).
  destruct (run_calls_appends _ _ _ Hcs) as (added & Hadded & _).
  rewrite redirect_to_url_eq, Hcode, Hadded, (find_app_Some _ _ _ r) by done.
  by rewrite redirect_eq, Hline.
Qed.

Lemma redirect_is_permanent_witness :
  let url s := mk_request (py "http") (py "localhost") (PDict [(py "url", PStr s)]) in
  let w := store_with empty_store (py "abcdef") (py "https://example.com/a") 3 in
  let w' := store_with w (py "hhhhhh") (py "https://example.com/b") 4 in
  redirect_to_url (py "abcdef") w'
  = Ok (Redirect (py "https://example.com/a") 302) w'.
Proof.
  intros url w w'.
  apply (redirect_is_permanent (py "abcdef") (py "https://example.com/a") 302
           [Resolve (py "hhhhhh");
            Shorten 1 (fun i => if bool_decide (i < 6) then i else 7) 4
              (url (py "https://example.com/b"));
            Shorten 0 (fun i => i) 5 (url (py "   "))] w).
  - vm_compute. reflexivity.
  - vm_compute. reflexivity.
Defined.

(** ** Codes are never handed out twice *)

Lemma shorten_url_201_inv fuel draws now req w code url w' :
  shorten_url fuel draws now req w
  = Ok (jsonify (created_body (host req) code url) 201) w' ->
  (code ∉ codes w) /\ url <> [] /\ w' = store_with w code url now.
Proof.
  intros Hrun. apply shorten_url_Ok_inv in Hrun
    as [(msg & [=] & _)|(s & n & Hvalid & _ & Hfresh & _ & Hr & ->)].
  injection Hr as -> _ ->. destruct Hvalid as (d & _ & _ & Hs). done.
Qed.

Lemma shorten_url_201_adaptable fuel draws now req w code url w' :
  shorten_url fuel draws now req w
  = Ok (jsonify (created_body (host req) code url) 201) w' ->
  adaptable code = true.
Proof.
  intros Hrun. apply shorten_url_Ok_inv in Hrun
    as [(msg & [=] & _)|(s & n & _ & _ & _ & _ & Hr & _)].
  injection Hr as -> _ _. apply candidate_adaptable.
Qed.

(** X10: two shorten calls that both answer 201, with any requests served
    in between, never return the same code, even for the same URL and the
    same draws; afterwards each code resolves to the URL it was created
    for: a 302 to it, or the [ValueError] of [redirect] when that URL
    holds CR or LF. *)
Theorem shorten_twice_distinct_codes
    fuel1 draws1 now1 req1 code1 url1 fuel2 draws2 now2 req2 code2 url2
    cs w w1 w2 w3 :
  shorten_url fuel1 draws1 now1 req1 w
  = Ok (jsonify (created_body (host req1) code1 url1) 201) w1 ->
  run_calls cs w1 = Some w2 ->
  shorten_url fuel2 draws2 now2 req2 w2
  = Ok (jsonify (created_body (host req2) code2 url2) 201) w3 ->
  code1 <> code2
  /\ redirect_to_url code1 w3
     = (if existsb is_newline url1 then Exn ValueError w3
        else Ok (Redirect url1 302) w3)
  /\ redirect_to_url code2 w3
     = (if existsb is_newline url2 then Exn ValueError w3
        else Ok (Redirect url2 302) w3).
Proof.
  intros Hrun1 Hcs Hrun2.
  pose proof (shorten_url_201_adaptable _ _ _ _ _ _ _ _ Hrun1) as Hcode1.
  pose proof (shorten_url_201_adaptable _ _ _ _ _ _ _ _ Hrun2) as Hcode2.
  apply shorten_url_201_inv in Hrun1 as (Hfresh1 & _ & ->).
  apply shorten_url_201_inv in Hrun2 as (Hfresh2 & _ & ->).
  destruct (run_calls_appends _ _ _ Hcs) as (added & Hadded & _).
  set (r1 := mk_row (urls_id_seq w) code1 url1 (Some now1)).
  assert (Hfind : find (has_code code1) (urls w2) = Some r1).
  { rewrite Hadded. apply find_app_Some. cbn [store_with urls].
    by apply find_has_code_app_fresh. }
  split; [|split].
  - intros <-. apply Hfresh2.
    apply find_has_code_Some in Hfind as [Hin _].
    by apply (list_elem_of_fmap_2 short_code) in Hin.
  - rewrite redirect_to_url_eq, Hcode1. cbn [store_with urls].
    rewrite (find_app_Some _ _ _ r1) by done. apply redirect_eq.
  - rewrite redirect_to_url_store_with by done. apply redirect_eq.
Qed.

Lemma shorten_twice_distinct_codes_witness :
  let req := mk_request (py "http") (py "localhost")
               (PDict [(py "url", PStr (py "https://example.com/"))]) in
  let draws := fun i => if bool_decide (i < 6) then i else 7 in
  let w1 := store_with empty_store (py "abcdef") (py "https://example.com/") 3 in
  let w3 := store_with w1 (py "hhhhhh") (py "https://example.com/") 4 in
  py "abcdef" <> py "hhhhhh"
  /\ redirect_to_url (py "abcdef") w3
     = Ok (Redirect (py "https://example.com/") 302) w3
  /\ redirect_to_url (py "hhhhhh") w3
     = Ok (Redirect (py "https://example.com/") 302) w3.
Proof.
  intros req draws w1 w3.
  apply (shorten_twice_distinct_codes
           1 draws 3 req (py "abcdef") (py "https://example.com/")
           1 draws 4 req (py "hhhhhh") (py "https://example.com/")
           [Resolve (py "abcdef")] empty_store w1 w1 w3).
  - vm_compute. reflexivity.
  - vm_compute. reflexivity.
  - vm_compute. reflexivity.
Defined.

(** ** What the rows look like *)

Lemma store_with_wellformed w n draws s now :
  strip s <> [] ->
  Forall row_wellformed (urls w) -> ids_in_sequence w ->
  Forall row_wellformed (urls (store_with w (candidate draws n) (strip s) now))
  /\ ids_in_sequence (store_with w (candidate draws n) (strip s) now).
Proof.
  intros Hs Hrows [Hids Hseq]. unfold store_with; cbn [urls urls_id_seq].
  split.
  - apply Forall_app. split; [done|]. apply Forall_singleton.
    unfold row_wellformed; cbn.
    destruct (generate_short_code_shape 6 draws (6 * n)) as [Hlen Hall].
    split; [exact Hlen|]. split.
    { eapply Forall_impl; [exact Hall|]. intros c. apply characters_alphanumeric. }
    split; [done|]. split; [|done]. apply strip_spec.
  - unfold ids_in_sequence; cbn [urls urls_id_seq].
    rewrite fmap_app, length_app, Hids, Hseq. cbn.
    rewrite Nat.add_1_r. split; [|done]. by rewrite seq_S.
Qed.

Lemma run_wellformed c w w' :
  Forall row_wellformed (urls w) -> ids_in_sequence w ->
  world_after (run c w) = Some w' ->
  Forall row_wellformed (urls w') /\ ids_in_sequence w'.
Proof.
  intros Hrows Hids Hrun.
  apply run_step in Hrun
    as [->|(? & draws & now & ? & s & n & _ & (d & _ & _ & Hs) & _ & _ & ->)];
    [done|].
  by apply store_with_wellformed.
Qed.

Lemma run_calls_wellformed cs w0 w :
  Forall row_wellformed (urls w0) -> ids_in_sequence w0 ->
  run_calls cs w0 = Some w ->
  Forall row_wellformed (urls w) /\ ids_in_sequence w.
Proof.
  revert w0. induction cs as [|c cs IH]; intros w0 Hrows Hids; cbn [run_calls].
  - by intros [= <-].
  - destruct (world_after (run c w0)) as [w1|] eqn:Hrun; [|done].
    destruct (run_wellformed _ _ _ Hrows Hids Hrun). by apply IH.
Qed.

Lemma run_calls_unique cs w0 w :
  unique_codes w0 -> run_calls cs w0 = Some w -> unique_codes w.
Proof.
  revert w0. induction cs as [|c cs IH]; intros w0 Hw0; cbn [run_calls].
  - by intros [= <-].
  - destruct (world_after (run c w0)) as [w1|] eqn:Hrun; [|done].
    apply IH. by apply (run_unique c w0).
Qed.

(** X11: in every store reached from the empty one, each row holds a code
    of six alphabet characters (so [VARCHAR(10)] is never exceeded), a URL
    that is not empty and has no surrounding whitespace, and a creation
    time that is not NULL; the ids are 1, 2, ... in insertion order. *)
Theorem reachable_rows_wellformed cs w :
  run_calls cs empty_store = Some w ->
  Forall row_wellformed (urls w) /\ ids_in_sequence w.
Proof.
  apply run_calls_wellformed; [constructor | done].
Qed.

Lemma reachable_rows_wellformed_witness :
  let w := {| urls := [mk_row 1 (py "abcdef") (py "https://example.com/a") (Some 3%Z);
                       mk_row 2 (py "hhhhhh") (py "https://example.com/b") (Some 4%Z)];
              urls_id_seq := 3 |} in
  Forall row_wellformed (urls w) /\ ids_in_sequence w.
Proof.
  intros w.
  apply (reachable_rows_wellformed
           [Shorten 0 (fun i => if bool_decide (i < 6) then i else 7) 3
              (mk_request (py "http") (py "localhost")
                 (PDict [(py "url", PStr (py " https://example.com/a"))]));
            Shorten 1 (fun i => if bool_decide (i < 6) then i else 7) 4
              (mk_request (py "http") (py "localhost")
                 (PDict [(py "url", PStr (py "https://example.com/b "))]))]).
  vm_compute. reflexivity.
Defined.

(** ** The listing and resolution agree *)

Lemma row_wellformed_adaptable r :
  row_wellformed r -> adaptable (short_code r) = true.
Proof.
  intros (_ & Hcode & _). apply alphanumeric_adaptable.
  eapply Forall_impl; [exact Hcode|]. intros c. apply characters_alphanumeric.
Qed.

(** X12: in every store reached from the empty one, the listing shows
    exactly the stored rows, each once, and no entry has a null
    [created_at]; resolving a listed code finds the URL listed with it:
    the answer is a 302 to that URL, or the [ValueError] of [redirect]
    when the URL holds CR or LF, never a 404. *)
Theorem listed_links_resolve isoformat req cs w :
  run_calls cs empty_store = Some w ->
  exists rows,
    list_urls isoformat req w
    = Ok (jsonify (PList (url_entry isoformat req <$> rows)) 200) w
    /\ rows ≡ₚ urls w
    /\ Forall (fun r =>
         redirect_to_url (short_code r) w
         = (if existsb is_newline (original_url r) then Exn ValueError w
            else Ok (Redirect (original_url r) 302) w)
         /\ exists t,
              created_at r = Some t
              /\ url_entry isoformat req r
                 = PDict [(py "short_code", PStr (short_code r));
                          (py "original_url", PStr (original_url r));
                          (py "short_url",
                            PStr (py "http://" ++ host req ++ py "/"
                                  ++ short_code r));
                          (py "created_at", PStr (isoformat t))]) rows.
Proof.
  intros Hcs. exists (merge_sort newer_first (urls w)).
  split; [apply list_urls_eq|].
  split; [apply merge_sort_Permutation|].
  assert (Huniq : unique_codes w)
    by (apply (run_calls_unique cs empty_store); [apply NoDup_nil_2 | done]).
  destruct (run_calls_wellformed cs empty_store w) as [Hrows _];
    [constructor | done | done |].
  apply Forall_forall. intros r Hr. rewrite merge_sort_Permutation in Hr.
  rewrite Forall_forall in Hrows. specialize (Hrows r Hr).
  split.
  - rewrite redirect_to_url_eq, row_wellformed_adaptable by done.
    rewrite find_has_code_unique by done. apply redirect_eq.
  - destruct Hrows as (_ & _ & _ & _ & [t Ht]).
    exists t. split; [done|]. unfold url_entry. by rewrite Ht.
Qed.

Lemma listed_links_resolve_witness :
  let isoformat := fun _ : Z => py "2025-02-15T14:30:00" in
  let req := mk_request (py "http") (py "localhost") PNone in
  let w := {| urls := [mk_row 1 (py "abcdef") (py "https://example.com/a") (Some 3%Z);
                       mk_row 2 (py "hhhhhh") (py "https://example.com/b") (Some 4%Z)];
              urls_id_seq := 3 |} in
  exists rows,
    list_urls isoformat req w
    = Ok (jsonify (PList (url_entry isoformat req <$> rows)) 200) w
    /\ rows ≡ₚ urls w
    /\ Forall (fun r =>
         redirect_to_url (short_code r) w
         = (if existsb is_newline (original_url r) then Exn ValueError w
            else Ok (Redirect (original_url r) 302) w)
         /\ exists t,
              created_at r = Some t
              /\ url_entry isoformat req r
                 = PDict [(py "short_code", PStr (short_code r));
                          (py "original_url", PStr (original_url r));
                          (py "short_url",
                            PStr (py "http://" ++ host req ++ py "/"
                                  ++ short_code r));
                          (py "created_at", PStr (isoformat t))]) rows.
Proof.
  intros isoformat req w.
  apply (listed_links_resolve isoformat req
           [Shorten 0 (fun i => if bool_decide (i < 6) then i else 7) 3
              (mk_request (py "http") (py "localhost")
                 (PDict [(py "url", PStr (py " https://example.com/a"))]));
            Shorten 1 (fun i => if bool_decide (i < 6) then i else 7) 4
              (mk_request (py "http") (py "localhost")
                 (PDict [(py "url", PStr (py "https://example.com/b "))]))]).
  vm_compute. reflexivity.
Defined.

(** ** A new mapping in the listing *)

Lemma newest_heads_sorted (l : list row) r (sorted : list row) :
  Forall (fun x => older x r) l ->
  sorted ≡ₚ l ++ [r] -> StronglySorted newer_first sorted ->
  exists rest,
    sorted = r :: rest /\ rest ≡ₚ l /\ StronglySorted newer_first rest.
Proof.
  intros Hold Hperm Hsorted.
  destruct Hsorted as [|h t Ht Hh].
  { apply Permutation_nil_l in Hperm. by destruct l. }
  assert (h = r) as ->.
  { assert (Hin : h ∈ l ++ [r]) by (rewrite <- Hperm; by left).
    apply elem_of_app in Hin as [Hin|Hin%list_elem_of_singleton]; [|done].
    exfalso. rewrite Forall_forall in Hold, Hh.
    apply (older_not_newer_first h r); [by apply Hold|].
    assert (Hr : r ∈ h :: t)
      by (rewrite Hperm; apply elem_of_app; right; by left).
    apply elem_of_cons in Hr as [->|Hr]; [|by apply Hh].
    destruct (Hold h Hin) as (t1 & t2 & H1 & H2 & Hlt).
    rewrite H1 in H2. injection H2 as ->. lia. }
  exists t. split; [done|]. split; [|done].
  apply (Permutation.Permutation_cons_inv (a := r)).
  rewrite Hperm. apply (Permutation_app_comm l [r]).
Qed.

(** X13: a mapping created at a time later than every stored creation
    time heads the next listing, followed by the mappings stored before
    it, newest first. *)
Theorem list_urls_after_shorten
    isoformat req' fuel draws now req w code url w' :
  shorten_url fuel draws now req w
  = Ok (jsonify (created_body (host req) code url) 201) w' ->
  Forall (fun r => exists t, created_at r = Some t /\ (t < now)%Z) (urls w) ->
  exists rest,
    list_urls isoformat req' w'
    = Ok (jsonify
            (PList (PDict [(py "short_code", PStr code);
                           (py "original_url", PStr url);
                           (py "short_url", PStr (short_url_of (host req') code));
                           (py "created_at", PStr (isoformat now))]
                    :: (url_entry isoformat req' <$> rest))) 200) w'
    /\ rest ≡ₚ urls w /\ StronglySorted newer_first rest.
Proof.
  intros (_ & _ & ->)%shorten_url_201_inv Hold.
  set (r := mk_row (urls_id_seq w) code url (Some now)).
  destruct (newest_heads_sorted (urls w) r
              (merge_sort newer_first (urls w ++ [r]))) as (rest & Heq & Hrest).
  - eapply Forall_impl; [exact Hold|]. intros x (t & Ht & Hlt).
    by exists t, now.
  - apply merge_sort_Permutation.
  - apply StronglySorted_merge_sort; apply _.
  - exists rest. split; [|done].
    rewrite list_urls_eq. cbn [store_with urls]. fold r. by rewrite Heq.
Qed.

Lemma list_urls_after_shorten_witness :
  let isoformat := fun _ : Z => py "2025-02-15T14:30:00" in
  let req := mk_request (py "http") (py "localhost")
               (PDict [(py "url", PStr (py "https://example.com/c"))]) in
  let w := {| urls := [mk_row 1 (py "aaaaaa") (py "https://example.com/a") (Some 7%Z);
                       mk_row 2 (py "bbbbbb") (py "https://example.com/b") (Some 7%Z)];
              urls_id_seq := 3 |} in
  let w' := store_with w (py "cccccc") (py "https://example.com/c") 9 in
  exists rest,
    list_urls isoformat req w'
    = Ok (jsonify
            (PList (PDict [(py "short_code", PStr (py "cccccc"));
                           (py "original_url", PStr (py "https://example.com/c"));
                           (py "short_url",
                             PStr (short_url_of (host req) (py "cccccc")));
                           (py "created_at", PStr (isoformat 9%Z))]
                    :: (url_entry isoformat req <$> rest))) 200) w'
    /\ rest ≡ₚ urls w /\ StronglySorted newer_first rest.
Proof.
  intros isoformat req w w'.
  apply (list_urls_after_shorten isoformat req 0 (fun _ => 2) 9 req w).
  - vm_compute. reflexivity.
  - repeat constructor; eexists; (split; [reflexivity|lia]).
Defined.

(** ** What a creation changes for resolution *)




(** ** The short link is rebuilt, not stored *)

Lemma short_url_of_inj host1 host2 code :
  short_url_of host1 code = short_url_of host2 code <-> host1 = host2.
Proof.
  split; [|by intros ->]. unfold short_url_of.
  intros H%app_inv_head. rewrite !app_assoc in H.
  by apply app_inv_tail, app_inv_tail in H.
Qed.

(** X16: the table keeps no short link. The listing builds each link
    from the host of the listing request, so a mapping is listed with the
    link its creation returned exactly when the listing is requested
    under the host the creation was requested under. *)
Theorem short_url_rebuilt_per_request
    isoformat req' fuel draws now req w code url w' :
  shorten_url fuel draws now req w
  = Ok (jsonify (created_body (host req) code url) 201) w' ->
  exists r,
    r ∈ urls w' /\ short_code r = code /\ original_url r = url
    /\ url_entry isoformat req' r
       = PDict [(py "short_code", PStr code);
                (py "original_url", PStr url);
                (py "short_url", PStr (short_url_of (host req') code));
                (py "created_at", PStr (isoformat now))]
    /\ (short_url_of (host req') code = short_url_of (host req) code
        <-> host req' = host req).
Proof.
  intros (_ & _ & ->)%shorten_url_201_inv.
  exists (mk_row (urls_id_seq w) code url (Some now)).
  split; [apply elem_of_app; right; by left|].
  do 3 (split; [done|]). apply short_url_of_inj.
Qed.

Lemma short_url_rebuilt_per_request_witness :
  let isoformat := fun _ : Z => py "2025-02-15T14:30:00" in
  let req := mk_request (py "http") (py "localhost")
               (PDict [(py "url", PStr (py "https://example.com/c"))]) in
  let req' := mk_request (py "https") (py "sho.rt") PNone in
  let w' := store_with empty_store (py "cccccc") (py "https://example.com/c") 9 in
  exists r,
    r ∈ urls w' /\ short_code r = py "cccccc"
    /\ original_url r = py "https://example.com/c"
    /\ url_entry isoformat req' r
       = PDict [(py "short_code", PStr (py "cccccc"));
                (py "original_url", PStr (py "https://example.com/c"));
                (py "short_url", PStr (short_url_of (host req') (py "cccccc")));
                (py "created_at", PStr (isoformat 9%Z))]
    /\ (short_url_of (host req') (py "cccccc")
        = short_url_of (host req) (py "cccccc")
        <-> host req' = host req).
Proof.
  intros isoformat req req' w'.
  apply (short_url_rebuilt_per_request isoformat req' 0 (fun _ => 2) 9 req
           empty_store).
  vm_compute. reflexivity.
Defined.
